(** * The futures account ledger of rqalpha

    A shallow embedding of
    [rqalpha/mod/rqalpha_mod_sys_accounts/account_model/future_account.py]
    (class [FutureAccount] and the helper [margin_of]) together with the
    properties of its order decomposition, trade application, frozen cash
    tracking, snapshot restore and settlement.

    Conventions of the embedding.
    - Quantities (numbers of contracts) are integers, [Z].
    - Cash, prices, rates and margins are Python floats in the program; they
      are embedded as exact rationals [Qc].  The properties below state the
      expressions the program evaluates, in the program's order of
      operations, and do not rest on identities of exact arithmetic that
      rounding breaks; the one property that is about such an identity, the
      conservation of total value by the settlement, is settled on a second
      embedding of the settlement over 64-bit floats ([Binary64]).  [/] is
      Python 3 true division; dividing by zero raises, which the embedding
      renders as [None].
    - A handler mutates [self]; here it takes the account and returns the
      new one ([option] where the handler can raise).
    - [user_system_log.warn] only writes to a log and never changes the
      account, so the calls are left out.
    - The position class, the order and trade classes and the environment
      are collaborators that live outside this file of the program: the
      position is an interface ([Position.Model]), orders and trades are
      records of the attributes the account and its collaborators read, the
      environment is a record of the three oracles the account consults.
    - A Python [dict] is a [gmap], visited in the order of [map_to_list];
      the loops over positions treat each entry on its own and the sums are
      sums of exact numbers, so the order of the visit does not show. *)

From Stdlib Require Import Floats.PrimFloat.
From Stdlib Require Import ZArith QArith Qcanon Qcabs.
From stdpp Require Import base numbers strings list option gmap fin_maps.

Local Open Scope Z_scope.

(** ** Constants ([rqalpha.const]) *)

Inductive SIDE := BUY | SELL.
Inductive POSITION_EFFECT := OPEN | CLOSE | CLOSE_TODAY.

Global Instance SIDE_eq_dec : EqDecision SIDE.
Proof. solve_decision. Defined.
Global Instance POSITION_EFFECT_eq_dec : EqDecision POSITION_EFFECT.
Proof. solve_decision. Defined.

(** ** Trades and orders, as far as the account reads them *)

Module Trade.
Record t := mk {
  exec_id : Z;
  order_book_id : string;
  side : SIDE;
  position_effect : POSITION_EFFECT;
  last_quantity : Z;
  last_price : Qc;
  transaction_cost : Qc
}.
End Trade.

Module Order.
Record t := mk {
  order_book_id : string;
  side : SIDE;
  position_effect : POSITION_EFFECT;
  quantity : Z;
  filled_quantity : Z;
  unfilled_quantity : Z;
  frozen_price : Qc;
  is_active : bool
}.
End Order.

(** ** The environment singleton

  [Environment.get_instance()] supplies the global margin multiplier
  ([env.config.base.margin_multiplier]), the instrument terms and the
  transaction cost estimate of an order (always asked for the account type
  [DEFAULT_ACCOUNT_TYPE.FUTURE]). *)

Module Instrument.
Record t := mk {
  contract_multiplier : Qc;
  margin_rate : Qc
}.
End Instrument.

Module Environment.
Record t := mk {
  margin_multiplier : Qc;
  get_instrument : string → Instrument.t;
  get_order_transaction_cost : Order.t → Qc
}.
End Environment.

(** [sum(...)] of Python: starts from 0 and adds from left to right. *)
Definition sum_Qc (l : list Qc) : Qc := foldl Qcplus 0%Qc l.

(** [Z] quantities where the program mixes them with cash. *)
Definition Z2Qc (n : Z) : Qc := Qc_of_Z n.

(** [a / b] on two quantities; [ZeroDivisionError] is [None]. *)
Definition py_div (a b : Z) : option Qc :=
  if decide (b = 0) then None else Some (Z2Qc a / Z2Qc b)%Qc.

(** ** The position interface

  What [FutureAccount] reads and calls on a position object.  [snapshot]
  is the dictionary [position.get_state()] produces and
  [position.set_state(v)] consumes; [snapshot_margin_rate v] is
  [v['margin_rate']] when the key is present.  [Position.cls] is the
  constructor the position collection calls for an instrument it has no
  entry for.  The methods are total functions here: an exception raised
  inside the position class is outside the embedding, and no property
  below says that a call into it cannot fail. *)

Module Position.
Class Model (P snapshot : Type) := {
  cls : string → P;
  buy_old_quantity : P → Z;
  buy_today_quantity : P → Z;
  sell_old_quantity : P → Z;
  sell_today_quantity : P → Z;
  buy_quantity : P → Z;
  sell_quantity : P → Z;
  margin : P → Qc;
  holding_pnl : P → Qc;
  margin_rate : P → Qc;
  is_de_listed : P → bool;
  apply_settlement : P → P;
  apply_trade : P → Trade.t → P * Qc;
  update_last_price : P → P;
  set_state : P → snapshot → P;
  snapshot_margin_rate : snapshot → option Qc
}.

(** The data-model invariant of a position: no bucket is negative. *)
Definition buckets_nonneg `{Model P snapshot} (p : P) : Prop :=
  0 ≤ buy_old_quantity p ∧ 0 ≤ buy_today_quantity p ∧
  0 ≤ sell_old_quantity p ∧ 0 ≤ sell_today_quantity p.
End Position.

(** ** A reference position

    Modelled from the spec: the position class ([FuturePosition]) is not part
    of the file embedded here, so this instance of [Position.Model] follows
    the description of the position ledger: four quantity buckets, a cost
    basis per direction, the last observed price, holding and realized pnl.
    The properties of the account below are proved for every instance of the
    interface; this one makes them runnable on concrete accounts. *)

Module Ledger.
Record t := mk {
  order_book_id : string;
  buy_old_quantity : Z;
  buy_today_quantity : Z;
  sell_old_quantity : Z;
  sell_today_quantity : Z;
  buy_avg_price : Qc;
  sell_avg_price : Qc;
  last_price : Qc;
  holding_pnl : Qc;
  realized_pnl : Qc
}.

Record snapshot := mk_snapshot {
  stored : t;
  stored_margin_rate : option Qc
}.

Section Ledger.
Variable env : Environment.t.
Variable de_listed : string → bool.
Variable market_price : string → Qc.

Definition cls (order_book_id : string) : t :=
  mk order_book_id 0 0 0 0 0%Qc 0%Qc 0%Qc 0%Qc 0%Qc.

Definition buy_quantity (p : t) : Z := buy_old_quantity p + buy_today_quantity p.
Definition sell_quantity (p : t) : Z := sell_old_quantity p + sell_today_quantity p.

Definition contract_multiplier (p : t) : Qc :=
  Instrument.contract_multiplier (Environment.get_instrument env (order_book_id p)).

Definition margin_rate (p : t) : Qc :=
  Instrument.margin_rate (Environment.get_instrument env (order_book_id p)).

(** Quantity × contract multiplier × price × margin rate × margin
    multiplier, summed over the buckets. *)
Definition margin (p : t) : Qc :=
  (Z2Qc (buy_quantity p + sell_quantity p) * contract_multiplier p * last_price p
     * margin_rate p * Environment.margin_multiplier env)%Qc.

Definition is_de_listed (p : t) : bool := de_listed (order_book_id p).

(** Holding pnl from the cost basis against a price, scaled by the contract
    multiplier. *)
Definition holding_pnl_at (p : t) (price : Qc) : Qc :=
  (((price - buy_avg_price p) * Z2Qc (buy_quantity p)
    + (sell_avg_price p - price) * Z2Qc (sell_quantity p))
   * contract_multiplier p)%Qc.

Definition update_last_price (p : t) : t :=
  let price := market_price (order_book_id p) in
  mk (order_book_id p) (buy_old_quantity p) (buy_today_quantity p)
     (sell_old_quantity p) (sell_today_quantity p) (buy_avg_price p)
     (sell_avg_price p) price (holding_pnl_at p price) (realized_pnl p).

(** Today's buckets move into the old ones; the pnl baseline restarts from
    the last price. *)
Definition apply_settlement (p : t) : t :=
  mk (order_book_id p) (buy_old_quantity p + buy_today_quantity p) 0
     (sell_old_quantity p + sell_today_quantity p) 0 (last_price p)
     (last_price p) (last_price p) 0%Qc 0%Qc.

(** Quantity-weighted cost basis after adding [q] contracts at [price]. *)
Definition weighted (avg : Qc) (held : Z) (price : Qc) (q : Z) : Qc :=
  if decide (held + q = 0) then price
  else ((avg * Z2Qc held + price * Z2Qc q) / Z2Qc (held + q))%Qc.

(** The quantity goes to the bucket of (side, position effect); the result is
    the realized cash delta: zero for an open, proceeds minus cost basis for
    a close. *)
Definition apply_trade (p : t) (trade : Trade.t) : t * Qc :=
  let q := Trade.last_quantity trade in
  let price := Trade.last_price trade in
  match Trade.position_effect trade, Trade.side trade with
  | OPEN, BUY =>
      (mk (order_book_id p) (buy_old_quantity p) (buy_today_quantity p + q)
          (sell_old_quantity p) (sell_today_quantity p)
          (weighted (buy_avg_price p) (buy_quantity p) price q)
          (sell_avg_price p) (last_price p) (holding_pnl p) (realized_pnl p),
       0%Qc)
  | OPEN, SELL =>
      (mk (order_book_id p) (buy_old_quantity p) (buy_today_quantity p)
          (sell_old_quantity p) (sell_today_quantity p + q)
          (buy_avg_price p)
          (weighted (sell_avg_price p) (sell_quantity p) price q)
          (last_price p) (holding_pnl p) (realized_pnl p),
       0%Qc)
  | CLOSE, BUY =>
      let delta := ((sell_avg_price p - price) * Z2Qc q * contract_multiplier p)%Qc in
      (mk (order_book_id p) (buy_old_quantity p) (buy_today_quantity p)
          (sell_old_quantity p - q) (sell_today_quantity p)
          (buy_avg_price p) (sell_avg_price p) (last_price p) (holding_pnl p)
          (realized_pnl p + delta)%Qc,
       delta)
  | CLOSE_TODAY, BUY =>
      let delta := ((sell_avg_price p - price) * Z2Qc q * contract_multiplier p)%Qc in
      (mk (order_book_id p) (buy_old_quantity p) (buy_today_quantity p)
          (sell_old_quantity p) (sell_today_quantity p - q)
          (buy_avg_price p) (sell_avg_price p) (last_price p) (holding_pnl p)
          (realized_pnl p + delta)%Qc,
       delta)
  | CLOSE, SELL =>
      let delta := ((price - buy_avg_price p) * Z2Qc q * contract_multiplier p)%Qc in
      (mk (order_book_id p) (buy_old_quantity p - q) (buy_today_quantity p)
          (sell_old_quantity p) (sell_today_quantity p)
          (buy_avg_price p) (sell_avg_price p) (last_price p) (holding_pnl p)
          (realized_pnl p + delta)%Qc,
       delta)
  | CLOSE_TODAY, SELL =>
      let delta := ((price - buy_avg_price p) * Z2Qc q * contract_multiplier p)%Qc in
      (mk (order_book_id p) (buy_old_quantity p) (buy_today_quantity p - q)
          (sell_old_quantity p) (sell_today_quantity p)
          (buy_avg_price p) (sell_avg_price p) (last_price p) (holding_pnl p)
          (realized_pnl p + delta)%Qc,
       delta)
  end.

Definition set_state (p : t) (v : snapshot) : t := stored v.

Definition model : Position.Model t snapshot := {|
  Position.cls := cls;
  Position.buy_old_quantity := buy_old_quantity;
  Position.buy_today_quantity := buy_today_quantity;
  Position.sell_old_quantity := sell_old_quantity;
  Position.sell_today_quantity := sell_today_quantity;
  Position.buy_quantity := buy_quantity;
  Position.sell_quantity := sell_quantity;
  Position.margin := margin;
  Position.holding_pnl := holding_pnl;
  Position.margin_rate := margin_rate;
  Position.is_de_listed := is_de_listed;
  Position.apply_settlement := apply_settlement;
  Position.apply_trade := apply_trade;
  Position.update_last_price := update_last_price;
  Position.set_state := set_state;
  Position.snapshot_margin_rate := stored_margin_rate
|}.
End Ledger.
End Ledger.

(** ** Child order requests

    [order(order_book_id, amount, side, position_effect, style)] of
    [api_future] builds one child order; the embedding keeps the five
    arguments of the call. *)

Module Request.
Record t (Style : Type) := mk {
  order_book_id : string;
  amount : Z;
  side : SIDE;
  position_effect : POSITION_EFFECT;
  style : Style
}.
Arguments mk {Style}.
Arguments order_book_id {Style}.
Arguments amount {Style}.
Arguments side {Style}.
Arguments position_effect {Style}.
Arguments style {Style}.
End Request.

(** ** Account snapshots

    The dictionary [get_state] returns and [set_state] reads: the position
    snapshots by instrument, the two cash fields and the replay guard as a
    list.  A dictionary that lacks one of the four keys makes [set_state]
    raise [KeyError]; the record is the accepted shape. *)

Module AccountState.
Record t (snapshot : Type) := mk {
  positions : gmap string snapshot;
  frozen_cash : Qc;
  total_cash : Qc;
  backward_trade_set : list Z
}.
Arguments mk {snapshot}.
Arguments positions {snapshot}.
Arguments frozen_cash {snapshot}.
Arguments total_cash {snapshot}.
Arguments backward_trade_set {snapshot}.
End AccountState.

(** ** Events

    The payloads the event bus hands to the listeners of [register_event].
    [account] identifies the account an event is addressed to; a handler
    compares it with its own identity ([self != event.account]). *)

Module Event.
Inductive t :=
| TRADE (account : nat) (trade : Trade.t) (order : option Order.t)
| ORDER_PENDING_NEW (account : nat) (order : Order.t)
| ORDER_CREATION_REJECT (account : nat) (order : Order.t)
| ORDER_UNSOLICITED_UPDATE (account : nat) (order : Order.t)
| ORDER_CANCELLATION_PASS (account : nat) (order : Order.t)
| SETTLEMENT
| BAR
| TICK.
End Event.

(** ** The account *)

Module FutureAccount.
Section Account.
Context {P snapshot : Type} `{!Position.Model P snapshot}.
Context {Style : Type}.
Variable env : Environment.t.

(** [margin_of(order_book_id, quantity, price)] *)
Definition margin_of (order_book_id : string) (quantity : Z) (price : Qc) : Qc :=
  let margin_multiplier := Environment.margin_multiplier env in
  let instrument := Environment.get_instrument env order_book_id in
  (Z2Qc quantity * Instrument.contract_multiplier instrument * price
     * Instrument.margin_rate instrument * margin_multiplier)%Qc.

(** The fields of the account object.  [forced_liquidation] is the class
    attribute (default [True]) that the settlement reads through [self]. *)
Record t := mk {
  _positions : gmap string P;
  _total_cash : Qc;
  _frozen_cash : Qc;
  _backward_trade_set : gset Z;
  forced_liquidation : bool
}.

Definition set_positions (self : t) (m : gmap string P) : t :=
  mk m (_total_cash self) (_frozen_cash self) (_backward_trade_set self)
     (forced_liquidation self).
Definition set_total_cash (self : t) (c : Qc) : t :=
  mk (_positions self) c (_frozen_cash self) (_backward_trade_set self)
     (forced_liquidation self).
Definition set_frozen_cash (self : t) (c : Qc) : t :=
  mk (_positions self) (_total_cash self) c (_backward_trade_set self)
     (forced_liquidation self).
Definition set_backward_trade_set (self : t) (s : gset Z) : t :=
  mk (_positions self) (_total_cash self) (_frozen_cash self) s
     (forced_liquidation self).

(** *** The position collection

    [self.positions[order_book_id]]: an instrument without an entry reads
    as a fresh position, which is not stored. *)
Definition positions_getitem (self : t) (order_book_id : string) : P :=
  default (Position.cls order_book_id) (_positions self !! order_book_id).

(** [self._positions.get_or_create(order_book_id)]: the entry, created and
    stored when it was missing. *)
Definition get_or_create (m : gmap string P) (order_book_id : string)
  : gmap string P * P :=
  match m !! order_book_id with
  | Some position => (m, position)
  | None => (<[order_book_id := Position.cls order_book_id]> m,
             Position.cls order_book_id)
  end.

(** *** [order]: decomposition into child orders *)

Definition order (self : t) (order_book_id : string) (quantity : Z)
    (style : Style) (target : bool) : list (Request.t Style) :=
  let position := positions_getitem self order_book_id in
  let quantity :=
    if target
    then quantity - Position.buy_quantity position + Position.sell_quantity position
    else quantity in
  let orders := [] in
  if bool_decide (quantity > 0) then
    let sell_old_quantity := Position.sell_old_quantity position in
    let sell_today_quantity := Position.sell_today_quantity position in
    let '(orders, quantity) :=
      if bool_decide (sell_old_quantity > 0)
      then (orders ++ [Request.mk order_book_id (Z.min quantity sell_old_quantity)
                                  BUY CLOSE style],
            quantity - sell_old_quantity)
      else (orders, quantity) in
    if bool_decide (quantity ≤ 0) then orders else
    let '(orders, quantity) :=
      if bool_decide (sell_today_quantity > 0)
      then (orders ++ [Request.mk order_book_id (Z.min quantity sell_today_quantity)
                                  BUY CLOSE_TODAY style],
            quantity - sell_today_quantity)
      else (orders, quantity) in
    if bool_decide (quantity ≤ 0) then orders else
    orders ++ [Request.mk order_book_id quantity BUY OPEN style]
  else
    let quantity := quantity * -1 in
    let buy_old_quantity := Position.buy_old_quantity position in
    let buy_today_quantity := Position.buy_today_quantity position in
    let '(orders, quantity) :=
      if bool_decide (buy_old_quantity > 0)
      then (orders ++ [Request.mk order_book_id (Z.min quantity buy_old_quantity)
                                  SELL CLOSE style],
            quantity - Z.min quantity buy_old_quantity)
      else (orders, quantity) in
    if bool_decide (quantity ≤ 0) then orders else
    let '(orders, quantity) :=
      if bool_decide (buy_today_quantity > 0)
      then (orders ++ [Request.mk order_book_id (Z.min quantity buy_today_quantity)
                                  SELL CLOSE_TODAY style],
            quantity - buy_today_quantity)
      else (orders, quantity) in
    if bool_decide (quantity ≤ 0) then orders else
    orders ++ [Request.mk order_book_id quantity SELL OPEN style].

(** The decomposition as the specification words it, for a requested
    quantity [q] against the old and today buckets of the opposite side: a
    CLOSE leg of [min q old] when [old > 0]; then, when something remains and
    [today > 0], a CLOSE_TODAY leg of [min remaining today]; then an OPEN leg
    of the remainder only if something still remains. *)
Definition decomposition_spec (order_book_id : string) (side : SIDE) (style : Style)
    (q old today : Z) : list (Request.t Style) :=
  let close_old := bool_decide (old > 0) in
  let leg_old :=
    if close_old then [Request.mk order_book_id (Z.min q old) side CLOSE style]
    else [] in
  let remaining := if close_old then q - Z.min q old else q in
  let close_today := bool_decide (remaining > 0) && bool_decide (today > 0) in
  let leg_today :=
    if close_today
    then [Request.mk order_book_id (Z.min remaining today) side CLOSE_TODAY style]
    else [] in
  let remaining := if close_today then remaining - Z.min remaining today else remaining in
  let leg_open :=
    if bool_decide (remaining > 0)
    then [Request.mk order_book_id remaining side OPEN style]
    else [] in
  leg_old ++ leg_today ++ leg_open.

(** *** Snapshot restore *)

(** One turn of the loop of [set_state] over [state['positions']]: the
    position is created, restored from [v] and stored; a recorded margin rate
    further than [1e-6] from the resolved one adds its pro-rated margin
    difference to [margin_changed]. *)
Definition set_state_step (acc : gmap string P * Qc) (item : string * snapshot)
    : option (gmap string P * Qc) :=
  let '(positions, margin_changed) := acc in
  let '(order_book_id, v) := item in
  let '(positions, position) := get_or_create positions order_book_id in
  let position := Position.set_state position v in
  let positions := <[order_book_id := position]> positions in
  match Position.snapshot_margin_rate v with
  | Some rate =>
      if bool_decide (Q2Qc (1 # 1000000) < Qcabs (rate - Position.margin_rate position))%Qc
      then
        if decide (Position.margin_rate position = 0%Qc) then None
        else Some (positions,
                   (margin_changed
                    + Position.margin position * (rate - Position.margin_rate position)
                      / Position.margin_rate position)%Qc)
      else Some (positions, margin_changed)
  | None => Some (positions, margin_changed)
  end.

Fixpoint set_state_loop (acc : gmap string P * Qc) (items : list (string * snapshot))
    : option (gmap string P * Qc) :=
  match items with
  | [] => Some acc
  | item :: items =>
      match set_state_step acc item with
      | Some acc => set_state_loop acc items
      | None => None
      end
  end.

Definition set_state (self : t) (state : AccountState.t snapshot) : option t :=
  let self := set_frozen_cash self (AccountState.frozen_cash state) in
  let self := set_backward_trade_set self
                (list_to_set (AccountState.backward_trade_set state)) in
  let margin_changed := 0%Qc in
  let self := set_positions self ∅ in
  match set_state_loop (_positions self, margin_changed)
          (map_to_list (AccountState.positions state)) with
  | Some (positions, margin_changed) =>
      Some (set_total_cash (set_positions self positions)
              (AccountState.total_cash state + margin_changed)%Qc)
  | None => None
  end.

(** The position [set_state] stores for one item of the snapshot. *)
Definition restored (item : string * snapshot) : P :=
  Position.set_state (Position.cls item.1) item.2.

(** The snapshot records a margin rate further than [1e-6] from the rate the
    restored position resolves. *)
Definition rate_changed (item : string * snapshot) : bool :=
  match Position.snapshot_margin_rate item.2 with
  | Some rate =>
      bool_decide (Q2Qc (1 # 1000000)
                   < Qcabs (rate - Position.margin_rate (restored item)))%Qc
  | None => false
  end.

(** The margin of the restored position times (snapshot rate − resolved
    rate) / resolved rate. *)
Definition margin_difference (item : string * snapshot) : Qc :=
  match Position.snapshot_margin_rate item.2 with
  | Some rate =>
      (Position.margin (restored item)
       * (rate - Position.margin_rate (restored item))
       / Position.margin_rate (restored item))%Qc
  | None => 0%Qc
  end.

(** *** Frozen cash and account totals *)

Definition _frozen_cash_of_order (order : Order.t) : Qc :=
  let order_cost :=
    if decide (Order.position_effect order = OPEN)
    then margin_of (Order.order_book_id order) (Order.quantity order)
                   (Order.frozen_price order)
    else 0%Qc in
  (order_cost + Environment.get_order_transaction_cost env order)%Qc.

Definition margin (self : t) : Qc :=
  sum_Qc (Position.margin <$> (map_to_list (_positions self)).*2).

Definition holding_pnl (self : t) : Qc :=
  sum_Qc (Position.holding_pnl <$> (map_to_list (_positions self)).*2).

Definition total_value (self : t) : Qc :=
  (_total_cash self + margin self + holding_pnl self)%Qc.

(** *** Settlement *)

(** One turn of the loop of [_settlement].  A position is stored under its
    own [order_book_id] ([get_or_create] is the only way in), so
    [del self._positions[order_book_id]] removes the entry being visited and
    [position.apply_settlement()] updates it in place. *)
Definition settle_position (positions : gmap string P) (item : string * P)
    : gmap string P :=
  let '(order_book_id, position) := item in
  if Position.is_de_listed position
     && bool_decide (Position.buy_quantity position + Position.sell_quantity position ≠ 0)
  then delete order_book_id positions
  else if bool_decide (Position.buy_quantity position = 0)
          && bool_decide (Position.sell_quantity position = 0)
  then delete order_book_id positions
  else <[order_book_id := Position.apply_settlement position]> positions.

Definition _settlement (self : t) : t :=
  let total_value := total_value self in
  let self := set_positions self
                (foldl settle_position (_positions self)
                       (map_to_list (_positions self))) in
  let self := set_total_cash self (total_value - margin self - holding_pnl self)%Qc in
  let self :=
    if bool_decide (total_value ≤ 0)%Qc && forced_liquidation self
    then set_total_cash (set_positions self ∅) 0%Qc
    else self in
  set_backward_trade_set self ∅.

Definition _update_last_price (self : t) : t :=
  set_positions self (Position.update_last_price <$> _positions self).

(** *** Order events *)

Definition _on_order_pending_new (me : nat) (self : t) (account : nat)
    (order : Order.t) : t :=
  if decide (me ≠ account) then self else
  set_frozen_cash self (_frozen_cash self + _frozen_cash_of_order order)%Qc.

Definition _on_order_unsolicited_update (me : nat) (self : t) (account : nat)
    (order : Order.t) : option t :=
  if decide (me ≠ account) then Some self else
  if decide (Order.filled_quantity order ≠ 0) then
    ratio ← py_div (Order.unfilled_quantity order) (Order.quantity order);
    Some (set_frozen_cash self
            (_frozen_cash self - ratio * _frozen_cash_of_order order)%Qc)
  else
    Some (set_frozen_cash self (_frozen_cash self - _frozen_cash_of_order order)%Qc).

(** *** Trades *)

Definition _apply_trade (self : t) (trade : Trade.t) (order : option Order.t)
    : option t :=
  if decide (Trade.exec_id trade ∈ _backward_trade_set self) then Some self else
  let order_book_id := Trade.order_book_id trade in
  let '(positions, position) := get_or_create (_positions self) order_book_id in
  let '(position, delta_cash) := Position.apply_trade position trade in
  let self := set_positions self (<[order_book_id := position]> positions) in
  let self := set_total_cash self (_total_cash self - Trade.transaction_cost trade)%Qc in
  let self := set_total_cash self (_total_cash self + delta_cash)%Qc in
  let self := set_backward_trade_set self
                ({[Trade.exec_id trade]} ∪ _backward_trade_set self) in
  match order with
  | Some order =>
      if decide (Trade.last_quantity trade ≠ Order.quantity order) then
        ratio ← py_div (Trade.last_quantity trade) (Order.quantity order);
        Some (set_frozen_cash self
                (_frozen_cash self - ratio * _frozen_cash_of_order order)%Qc)
      else
        Some (set_frozen_cash self (_frozen_cash self - _frozen_cash_of_order order)%Qc)
  | None => Some self
  end.

Definition _on_trade (me : nat) (self : t) (account : nat) (trade : Trade.t)
    (order : option Order.t) : option t :=
  if decide (me ≠ account) then Some self else _apply_trade self trade order.

(** *** Cold replay *)

(** First loop of [fast_forward]: trades already in the replay guard are
    skipped, opening trades are applied at once, the others are queued in
    [close_trades]. *)
Fixpoint replay_open_trades (self : t) (close_trades trades : list Trade.t)
    : option (t * list Trade.t) :=
  match trades with
  | [] => Some (self, close_trades)
  | trade :: trades =>
      if decide (Trade.exec_id trade ∈ _backward_trade_set self)
      then replay_open_trades self close_trades trades
      else if decide (Trade.position_effect trade = OPEN)
      then self ← _apply_trade self trade None;
           replay_open_trades self close_trades trades
      else replay_open_trades self (close_trades ++ [trade]) trades
  end.

(** Second loop of [fast_forward]: the queued trades, in their order. *)
Fixpoint replay_close_trades (self : t) (close_trades : list Trade.t) : option t :=
  match close_trades with
  | [] => Some self
  | trade :: close_trades =>
      self ← _apply_trade self trade None;
      replay_close_trades self close_trades
  end.

Definition fast_forward (self : t) (orders : list Order.t)
    (trades : option (list Trade.t)) : option t :=
  self ← match trades with
         | Some ((_ :: _) as trades) =>
             '(self, close_trades) ← replay_open_trades self [] trades;
             replay_close_trades self close_trades
         | _ => Some self
         end;
  Some (set_frozen_cash self
          (sum_Qc (_frozen_cash_of_order <$> List.filter Order.is_active orders))).

(** A trade that opens exposure. *)
Definition opening (trade : Trade.t) : bool :=
  bool_decide (Trade.position_effect trade = OPEN).

(** A trade that closes exposure (CLOSE or CLOSE_TODAY). *)
Definition closing (trade : Trade.t) : bool := negb (opening trade).

(** *** The listeners of [register_event]

    [AGGRESSIVE_UPDATE_LAST_PRICE] decides whether bars and ticks reach
    [_update_last_price]. *)
Definition register_event (AGGRESSIVE_UPDATE_LAST_PRICE : bool) (me : nat) (self : t)
    (event : Event.t) : option t :=
  match event with
  | Event.TRADE account trade order => _on_trade me self account trade order
  | Event.ORDER_PENDING_NEW account order =>
      Some (_on_order_pending_new me self account order)
  | Event.ORDER_CREATION_REJECT account order
  | Event.ORDER_UNSOLICITED_UPDATE account order
  | Event.ORDER_CANCELLATION_PASS account order =>
      _on_order_unsolicited_update me self account order
  | Event.SETTLEMENT => Some (_settlement self)
  | Event.BAR | Event.TICK =>
      if AGGRESSIVE_UPDATE_LAST_PRICE then Some (_update_last_price self)
      else Some self
  end.

End Account.

(** ** The rest of the account's interface *)

Section Interface.
Context {P snapshot : Type} `{!Position.Model P snapshot}.
Context {Style : Type}.
Variable env : Environment.t.

(** [position.get_state()], the one method of the position that [get_state]
    calls. *)
Variable position_get_state : P → snapshot.

(** [get_state]: the snapshot of every position, the two cash fields and the
    replay guard as a list ([list(self._backward_trade_set)]). *)
Definition get_state (self : @t P) : AccountState.t snapshot :=
  AccountState.mk (position_get_state <$> _positions self)
    (_frozen_cash self) (_total_cash self)
    (elements (_backward_trade_set self)).

(** What the loop of [_settlement] does with one position: a de-listed
    position with exposure and a flat position are dropped, any other is
    rolled. *)
Definition settled (position : P) : option P :=
  if Position.is_de_listed position
     && bool_decide (Position.buy_quantity position + Position.sell_quantity position ≠ 0)
  then None
  else if bool_decide (Position.buy_quantity position = 0)
          && bool_decide (Position.sell_quantity position = 0)
  then None
  else Some (Position.apply_settlement position).

(** The recorded rate of an item is off and the rate it resolves is zero:
    the item on which [set_state] divides by zero. *)
Definition unpriceable (item : string * snapshot) : Prop :=
  rate_changed item = true ∧ Position.margin_rate (restored item) = 0%Qc.

(** The insolvency test of [_settlement]. *)
Definition wiped_out (self : @t P) : bool :=
  bool_decide (total_value self ≤ 0)%Qc && forced_liquidation self.

(** A run of ORDER_PENDING_NEW events for this account, one per order. *)
Definition pending_new_all (me : nat) (self : @t P) (orders : list Order.t) : @t P :=
  foldl (λ self order, _on_order_pending_new env me self me order) self orders.

(** The contracts a list of child orders asks for. *)
Definition total_amount (orders : list (Request.t Style)) : Z :=
  foldr Z.add 0 (Request.amount <$> orders).

(** The signed quantity [order] decomposes: the argument, or its distance to
    the net position in target mode. *)
Definition order_delta (self : @t P) (order_book_id : string) (quantity : Z)
    (target : bool) : Z :=
  let position := positions_getitem self order_book_id in
  if target
  then quantity - Position.buy_quantity position + Position.sell_quantity position
  else quantity.

End Interface.

(** ** A concrete account

    One instrument with contract multiplier 10 and margin rate 1/10, a margin
    multiplier of 1, a fee of 1/2 per contract, and an account holding 5 old
    and 3 new long contracts. *)

Definition example_env : Environment.t :=
  Environment.mk (Z2Qc 1)
    (λ _, Instrument.mk (Z2Qc 10) (Q2Qc (1 # 10)))
    (λ order, (Z2Qc (Order.quantity order) * Q2Qc (1 # 2))%Qc).

Definition example_model : Position.Model Ledger.t Ledger.snapshot :=
  Ledger.model example_env (λ _, false) (λ _, Z2Qc 3100).

#[local] Existing Instance example_model.

Definition example_position : Ledger.t :=
  Ledger.mk "IF1706" 5 3 0 0 (Z2Qc 3000) (Z2Qc 0) (Z2Qc 3100) (Z2Qc 8000) (Z2Qc 0).

Definition example_account : t :=
  mk {[ "IF1706" := example_position ]} (Z2Qc 100000) (Z2Qc 500) {[ 7 ]} true.

(** The same holdings with a cash deficit that makes the total value
    negative. *)
Definition insolvent_account : t :=
  mk {[ "IF1706" := example_position ]} (Z2Qc (-50000)) (Z2Qc 500) {[ 7 ]} true.

Definition replayed_trade : Trade.t :=
  Trade.mk 7 "IF1706" SELL CLOSE 2 (Z2Qc 3100) (Z2Qc 1).

Definition closing_trade : Trade.t :=
  Trade.mk 8 "IF1706" SELL CLOSE 4 (Z2Qc 3100) (Z2Qc 2).

Definition opening_trade : Trade.t :=
  Trade.mk 9 "IF1706" BUY OPEN 1 (Z2Qc 3200) (Q2Qc (1 # 2)).

(** An order of 10 contracts, 4 of them filled. *)
Definition example_order : Order.t :=
  Order.mk "IF1706" SELL CLOSE 10 4 6 (Z2Qc 3100) true.

(** A snapshot of the account whose position records a margin rate of 2/10
    where the instrument now resolves 1/10. *)
Definition example_state : AccountState.t Ledger.snapshot :=
  AccountState.mk
    {[ "IF1706" := Ledger.mk_snapshot example_position (Some (Q2Qc (2 # 10))) ]}
    (Z2Qc 500) (Z2Qc 100000) [7].

(** A second environment of positions in which "IF1703" is de-listed, and an
    account holding it beside a flat position. *)
Definition expiring_model : Position.Model Ledger.t Ledger.snapshot :=
  Ledger.model example_env (λ id, bool_decide (id = "IF1703")) (λ _, Z2Qc 3100).

Definition expiring_position : Ledger.t :=
  Ledger.mk "IF1703" 2 0 0 0 (Z2Qc 3000) (Z2Qc 0) (Z2Qc 3100) (Z2Qc 2000) (Z2Qc 0).

Definition expiring_account : t :=
  mk {[ "IF1703" := expiring_position; "IF1709" := Ledger.cls "IF1709" ]}
     (Z2Qc 100000) (Z2Qc 0) ∅ true.

(** The snapshot of a reference position: the position itself, with the
    margin rate it resolves. *)
Definition example_position_get_state (p : Ledger.t) : Ledger.snapshot :=
  Ledger.mk_snapshot p (Some (Ledger.margin_rate example_env p)).

(** An order that opens 10 contracts, none filled yet. *)
Definition fresh_order : Order.t :=
  Order.mk "IF1706" BUY OPEN 10 0 10 (Z2Qc 3100) true.

(** An order of no contracts that reports a fill. *)
Definition empty_order : Order.t :=
  Order.mk "IF1706" BUY OPEN 0 1 0 (Z2Qc 3100) true.

(** ** The settlement in binary64

    The cash of the program is a Python float.  Where a property depends on
    how the float operations round, the exact rationals above do not decide
    it; this module embeds [total_value], [margin], [holding_pnl] and
    [_settlement] once more over 64-bit floats, with the operations of
    IEEE 754 ([PrimFloat.add], [PrimFloat.sub], [PrimFloat.leb]).

    The position collection is a Python [dict]; a float sum depends on the
    order of its terms, so the collection is an association list in insertion
    order with one entry per instrument.  What the settlement reads and calls
    on a position is taken as it comes: its margin and holding pnl (floats),
    its quantities, whether it is de-listed, and [apply_settlement]. *)

Module Binary64.
Section Account.
Context {P : Type}.
Variable position_margin : P → float.
Variable position_holding_pnl : P → float.
Variable position_is_de_listed : P → bool.
Variable position_buy_quantity : P → Z.
Variable position_sell_quantity : P → Z.
Variable position_apply_settlement : P → P.

Record t := mk {
  _positions : list (string * P);
  _total_cash : float;
  _frozen_cash : float;
  _backward_trade_set : gset Z;
  forced_liquidation : bool
}.

(** [sum(...)] over floats: starts from 0 and adds from left to right. *)
Definition sum (l : list float) : float := foldl PrimFloat.add 0%float l.

Definition margin (self : t) : float :=
  sum (position_margin <$> (_positions self).*2).

Definition holding_pnl (self : t) : float :=
  sum (position_holding_pnl <$> (_positions self).*2).

Definition total_value (self : t) : float :=
  PrimFloat.add (PrimFloat.add (_total_cash self) (margin self)) (holding_pnl self).

(** One turn of the loop of [_settlement]: [del self._positions[order_book_id]]
    drops the entry, [position.apply_settlement()] updates it where it is. *)
Definition settle_position (positions : list (string * P)) (item : string * P)
    : list (string * P) :=
  let '(order_book_id, position) := item in
  if position_is_de_listed position
     && bool_decide (position_buy_quantity position + position_sell_quantity position ≠ 0)
  then List.filter (λ entry, negb (bool_decide (entry.1 = order_book_id))) positions
  else if bool_decide (position_buy_quantity position = 0)
          && bool_decide (position_sell_quantity position = 0)
  then List.filter (λ entry, negb (bool_decide (entry.1 = order_book_id))) positions
  else (λ entry, if bool_decide (entry.1 = order_book_id)
                 then (entry.1, position_apply_settlement position)
                 else entry) <$> positions.

Definition _settlement (self : t) : t :=
  let total_value := total_value self in
  let self := mk (foldl settle_position (_positions self) (_positions self))
                 (_total_cash self) (_frozen_cash self) (_backward_trade_set self)
                 (forced_liquidation self) in
  let self := mk (_positions self)
                 (PrimFloat.sub (PrimFloat.sub total_value (margin self))
                                (holding_pnl self))
                 (_frozen_cash self) (_backward_trade_set self)
                 (forced_liquidation self) in
  let self :=
    if PrimFloat.leb total_value 0%float && forced_liquidation self
    then mk [] 0%float (_frozen_cash self) (_backward_trade_set self)
            (forced_liquidation self)
    else self in
  mk (_positions self) (_total_cash self) (_frozen_cash self) ∅
     (forced_liquidation self).

End Account.

(** A position as far as the settlement looks at it, and a roll that keeps
    the margin and restarts the holding pnl from zero. *)
Record Holding := holding {
  held_margin : float;
  held_holding_pnl : float;
  held_de_listed : bool;
  held_buy_quantity : Z;
  held_sell_quantity : Z
}.

Definition roll (p : Holding) : Holding :=
  holding (held_margin p) 0%float (held_de_listed p)
    (held_buy_quantity p) (held_sell_quantity p).

(** An account with 100528.38 in cash and one long position of 8 contracts
    carrying a margin of 18081.07 and a holding pnl of -4654.74 (the three
    numbers as the doubles Python reads them). *)
Definition rounding_account : @t Holding :=
  mk [("IF1706",
       holding 0x1.1a8447ae147aep+14%float (-0x1.22ebd70a3d70ap+12)%float false 8 0)]
     0x1.88b06147ae148p+16%float 0%float ∅ true.

End Binary64.

Section Properties.
Context {P snapshot : Type} `{!Position.Model P snapshot}.
Context {Style : Type}.
Variable env : Environment.t.

Implicit Types (self : @t P) (style : Style) (order_book_id : string).

(** ** Order decomposition *)

Local Ltac order_cases :=
  repeat case_bool_decide; simpl in *; try (exfalso; lia);
  repeat (f_equal; try lia).

(** C3: for a positive requested quantity the child orders follow the fixed
    precedence close-old, close-today, open, each leg capped by its bucket and
    nothing emitted once the remainder is zero; the negative direction mirrors
    it on the buy buckets.  With buy-old 5 and buy-today 3, selling 6 gives
    [CLOSE 5; CLOSE_TODAY 1] and selling 10 gives
    [CLOSE 5; CLOSE_TODAY 3; OPEN 2] (and the same for buying against
    sell-old 5, sell-today 3). *)
Theorem order_close_old_close_today_open self order_book_id style :
  let position := positions_getitem self order_book_id in
  (∀ q, q > 0 →
     order self order_book_id q style false
     = decomposition_spec order_book_id BUY style q
         (Position.sell_old_quantity position) (Position.sell_today_quantity position)
     ∧ order self order_book_id (- q) style false
       = decomposition_spec order_book_id SELL style q
           (Position.buy_old_quantity position) (Position.buy_today_quantity position))
  ∧ (Position.buy_old_quantity position = 5 →
     Position.buy_today_quantity position = 3 →
     order self order_book_id (-6) style false
     = [Request.mk order_book_id 5 SELL CLOSE style;
        Request.mk order_book_id 1 SELL CLOSE_TODAY style]
     ∧ order self order_book_id (-10) style false
       = [Request.mk order_book_id 5 SELL CLOSE style;
          Request.mk order_book_id 3 SELL CLOSE_TODAY style;
          Request.mk order_book_id 2 SELL OPEN style])
  ∧ (Position.sell_old_quantity position = 5 →
     Position.sell_today_quantity position = 3 →
     order self order_book_id 6 style false
     = [Request.mk order_book_id 5 BUY CLOSE style;
        Request.mk order_book_id 1 BUY CLOSE_TODAY style]
     ∧ order self order_book_id 10 style false
       = [Request.mk order_book_id 5 BUY CLOSE style;
          Request.mk order_book_id 3 BUY CLOSE_TODAY style;
          Request.mk order_book_id 2 BUY OPEN style]).
Proof.
  intros position. split; [|split].
  - intros q Hq. split.
    + unfold order, decomposition_spec. fold position.
      generalize (Position.sell_old_quantity position) as old.
      generalize (Position.sell_today_quantity position) as today.
      intros today old. order_cases.
    + unfold order, decomposition_spec. fold position.
      generalize (Position.buy_old_quantity position) as old.
      generalize (Position.buy_today_quantity position) as today.
      intros today old. order_cases.
  - intros Hold Htoday. unfold order. fold position.
    rewrite Hold, Htoday. split; reflexivity.
  - intros Hold Htoday. unfold order. fold position.
    rewrite Hold, Htoday. split; reflexivity.
Qed.

(** C8: ordering to a target [T] gives the same child orders as ordering the
    difference between [T] and the net position, [buy_quantity] minus
    [sell_quantity]. *)
Theorem order_target_is_delta self order_book_id (T : Z) style :
  let position := positions_getitem self order_book_id in
  order self order_book_id T style true
  = order self order_book_id
      (T - (Position.buy_quantity position - Position.sell_quantity position))
      style false.
Proof.
  intros position. unfold order. fold position.
  replace (T - Position.buy_quantity position + Position.sell_quantity position)
    with (T - (Position.buy_quantity position - Position.sell_quantity position))
    by lia.
  reflexivity.
Qed.

(** C10: on a position whose buy-old bucket is not empty, a zero quantity
    (or a target equal to the net position) is not answered by the empty
    list but by one SELL CLOSE child order of quantity [min 0 buy_old = 0]:
    zero falls into the selling branch, whose close-old leg only looks at the
    bucket. *)
Theorem order_zero_emits_close_leg self order_book_id style :
  let position := positions_getitem self order_book_id in
  Position.buckets_nonneg position →
  Position.buy_old_quantity position ≠ 0 →
  order self order_book_id 0 style false
  = [Request.mk order_book_id 0 SELL CLOSE style]
  ∧ order self order_book_id
      (Position.buy_quantity position - Position.sell_quantity position) style true
    = [Request.mk order_book_id 0 SELL CLOSE style]
  ∧ Z.min 0 (Position.buy_old_quantity position) = 0.
Proof.
  intros position (Hbo & _) Hne.
  assert (Hpos : Position.buy_old_quantity position > 0) by lia.
  assert (H0 : order self order_book_id 0 style false
               = [Request.mk order_book_id 0 SELL CLOSE style]).
  { unfold order. fold position.
    generalize dependent (Position.buy_old_quantity position). intros old _ _ Hold.
    order_cases. }
  split; [exact H0|]. split; [|lia].
  rewrite <- H0. unfold order. fold position.
  replace (_ - _ - _ + _) with 0 by lia. reflexivity.
Qed.

(** ** Settlement *)

(** The account totals only read the position collection. *)
Lemma margin_positions self self' :
  _positions self = _positions self' → margin self = margin self'.
Proof. unfold margin. by intros ->. Qed.

Lemma holding_pnl_positions self self' :
  _positions self = _positions self' → holding_pnl self = holding_pnl self'.
Proof. unfold holding_pnl. by intros ->. Qed.

(** In exact arithmetic: when the insolvency wipeout does not fire (the value
    before the roll is positive, or forced liquidation is off), total cash
    plus margin plus holding pnl after the settlement is the total value
    before it, total cash being that value minus the margin and the holding
    pnl of the rolled positions. *)
Lemma settlement_conserves_exact self :
  (0 < total_value self)%Qc ∨ forced_liquidation self = false →
  (_total_cash (_settlement self) + margin (_settlement self)
     + holding_pnl (_settlement self))%Qc = total_value self
  ∧ _total_cash (_settlement self)
    = (total_value self - margin (_settlement self)
         - holding_pnl (_settlement self))%Qc.
Proof.
  intros Hlive.
  assert (Hgate : bool_decide (total_value self ≤ 0)%Qc && forced_liquidation self
                  = false).
  { destruct Hlive as [Hpos | ->]; [|by rewrite andb_false_r].
    rewrite bool_decide_eq_false_2; [done|]. by apply Qclt_not_le. }
  unfold _settlement.
  cbn [forced_liquidation set_total_cash set_positions]. rewrite Hgate.
  set (rolled := foldl settle_position _ _).
  remember (margin (set_positions self rolled)) as M eqn:HM.
  remember (holding_pnl (set_positions self rolled)) as H' eqn:HH.
  assert (Hm : ∀ c g, margin (mk rolled c (_frozen_cash self) g (forced_liquidation self))
                      = M).
  { intros. subst M. by apply margin_positions. }
  assert (Hh : ∀ c g, holding_pnl (mk rolled c (_frozen_cash self) g
                                      (forced_liquidation self)) = H').
  { intros. subst H'. by apply holding_pnl_positions. }
  clear HM HH.
  unfold set_backward_trade_set, set_total_cash, set_positions in *. simpl in *.
  rewrite !Hm, !Hh. split; [ring|reflexivity].
Qed.

(** C4: when the value before the roll is not positive and forced liquidation
    is on, the settlement leaves no position and a total cash of exactly
    zero. *)
Theorem settlement_forced_liquidation self :
  (total_value self ≤ 0)%Qc →
  forced_liquidation self = true →
  _positions (_settlement self) = ∅ ∧ _total_cash (_settlement self) = 0%Qc.
Proof.
  intros Hle Hfl. unfold _settlement.
  cbn [forced_liquidation set_total_cash set_positions].
  rewrite Hfl, bool_decide_eq_true_2 by done. simpl. done.
Qed.

(** ** Trades *)

Lemma apply_trade_guarded self trade order :
  Trade.exec_id trade ∈ _backward_trade_set self →
  _apply_trade env self trade order = Some self.
Proof. intros Hin. unfold _apply_trade. by rewrite decide_True. Qed.

(** C2: a trade whose exec id is in the replay guard changes nothing, with or
    without an order, applied directly or through the trade listener: the
    account that comes back is the account that went in. *)
Theorem apply_trade_replay_is_noop self trade (order : option Order.t) (me account : nat) :
  Trade.exec_id trade ∈ _backward_trade_set self →
  _apply_trade env self trade order = Some self
  ∧ _on_trade env me self account trade order = Some self.
Proof.
  intros Hin. split; [by apply apply_trade_guarded|].
  unfold _on_trade. case_decide; [done|]. by apply apply_trade_guarded.
Qed.

(** C7: a trade that is not a replay, applied with its order, lowers frozen
    cash by (fill quantity / order quantity) × the reservation of the order
    when the two quantities differ, and by the whole reservation when they
    are equal. *)
Theorem apply_trade_releases_frozen_cash self trade order :
  Trade.exec_id trade ∉ _backward_trade_set self →
  Trade.last_quantity trade = Order.quantity order ∨ Order.quantity order ≠ 0 →
  ∃ self', _apply_trade env self trade (Some order) = Some self'
    ∧ _frozen_cash self'
      = if decide (Trade.last_quantity trade ≠ Order.quantity order)
        then (_frozen_cash self
              - Z2Qc (Trade.last_quantity trade) / Z2Qc (Order.quantity order)
                * _frozen_cash_of_order env order)%Qc
        else (_frozen_cash self - _frozen_cash_of_order env order)%Qc.
Proof.
  intros Hnew Hq. unfold _apply_trade. rewrite decide_False by done.
  destruct (get_or_create _ _) as [positions position].
  destruct (Position.apply_trade _ _) as [position' delta_cash].
  case_decide as Hne.
  - destruct Hq as [Heq | Hnz]; [done|].
    unfold py_div. rewrite decide_False by done. simpl. eauto.
  - simpl. eauto.
Qed.

(** ** Frozen cash *)

(** C6: a creation reject, an unsolicited update or a cancellation pass
    addressed to the account lowers frozen cash by (unfilled quantity /
    quantity) × the reservation of the order when the order has a filled
    quantity, and by the whole reservation otherwise; the reservation is the
    margin requirement of an opening order plus the estimated transaction
    cost.  An order of 10 filled for 4 (6 unfilled) releases 6/10 of it. *)
Theorem unsolicited_update_releases_frozen_cash
    (aggressive : bool) (me : nat) self (order : Order.t) (event : Event.t) :
  event = Event.ORDER_CREATION_REJECT me order
  ∨ event = Event.ORDER_UNSOLICITED_UPDATE me order
  ∨ event = Event.ORDER_CANCELLATION_PASS me order →
  Order.filled_quantity order = 0 ∨ Order.quantity order ≠ 0 →
  register_event env aggressive me self event
  = Some (set_frozen_cash self
            (if decide (Order.filled_quantity order ≠ 0%Z)
             then _frozen_cash self
                  - Z2Qc (Order.unfilled_quantity order) / Z2Qc (Order.quantity order)
                    * _frozen_cash_of_order env order
             else _frozen_cash self - _frozen_cash_of_order env order)%Qc)
  ∧ _frozen_cash_of_order env order
    = ((if decide (Order.position_effect order = OPEN)
        then margin_of env (Order.order_book_id order) (Order.quantity order)
               (Order.frozen_price order)
        else 0)
       + Environment.get_order_transaction_cost env order)%Qc
  ∧ (Order.quantity order = 10 → Order.filled_quantity order = 4 →
     Order.unfilled_quantity order = 6 →
     register_event env aggressive me self event
     = Some (set_frozen_cash self
               (_frozen_cash self
                - Q2Qc (6 # 10) * _frozen_cash_of_order env order)%Qc)).
Proof.
  intros Hev Hq.
  assert (Hrun : register_event env aggressive me self event
                 = _on_order_unsolicited_update env me self me order).
  { by destruct Hev as [-> | [-> | ->]]. }
  rewrite Hrun. unfold _on_order_unsolicited_update.
  rewrite (decide_False (P := me ≠ me)) by auto.
  split; [|split].
  - case_decide as Hfilled; [|done].
    destruct Hq as [H0 | Hnz]; [done|].
    unfold py_div. by rewrite decide_False.
  - reflexivity.
  - intros H10 H4 H6. rewrite H10, H4, H6. reflexivity.
Qed.

(** ** Cold replay *)

(** Without an order, applying a trade cannot fail, and the replay guard
    only grows. *)
Lemma apply_trade_alone self trade :
  ∃ self', _apply_trade env self trade None = Some self'
    ∧ _backward_trade_set self ⊆ _backward_trade_set self'.
Proof.
  unfold _apply_trade. case_decide; [by eauto|].
  destruct (get_or_create _ _) as [positions position].
  destruct (Position.apply_trade _ _) as [position' delta_cash].
  eexists; split; [reflexivity|]. simpl. set_solver.
Qed.

Lemma replay_close_trades_total trades : ∀ self,
  ∃ self', replay_close_trades env self trades = Some self'
    ∧ _backward_trade_set self ⊆ _backward_trade_set self'.
Proof.
  induction trades as [|trade trades IH]; intros self; simpl; [by eauto|].
  destruct (apply_trade_alone self trade) as (self1 & -> & Hsub). simpl.
  destruct (IH self1) as (self2 & -> & Hsub'). eexists; split; [done|].
  set_solver.
Qed.

Lemma replay_close_trades_app trades1 trades2 : ∀ self,
  replay_close_trades env self (trades1 ++ trades2)
  = self' ← replay_close_trades env self trades1;
    replay_close_trades env self' trades2.
Proof.
  induction trades1 as [|trade trades1 IH]; intros self; simpl; [done|].
  destruct (_apply_trade env self trade None) as [self1|]; simpl; [|done].
  apply IH.
Qed.

(** What the first loop does: it applies the opening trades, in their order,
    and nothing else; the queue it builds holds closing trades only and
    behaves, from then on, like the closing trades of the batch in their order
    (the closing trades it leaves out are in the guard, so applying them would
    change nothing). *)
Lemma replay_open_trades_spec trades : ∀ self close_trades,
  ∃ self' queued,
    replay_open_trades env self close_trades trades
    = Some (self', close_trades ++ queued)
    ∧ replay_close_trades env self (List.filter opening trades) = Some self'
    ∧ Forall (λ trade, closing trade = true) queued
    ∧ _backward_trade_set self ⊆ _backward_trade_set self'
    ∧ ∀ later, _backward_trade_set self' ⊆ _backward_trade_set later →
        replay_close_trades env later queued
        = replay_close_trades env later (List.filter closing trades).
Proof.
  induction trades as [|trade trades IH]; intros self close_trades; simpl.
  { exists self, []. by rewrite app_nil_r. }
  replace (closing trade) with (negb (opening trade)) by done.
  destruct (opening trade) eqn:Hop; simpl;
    [apply bool_decide_eq_true in Hop | apply bool_decide_eq_false in Hop].
  - (* an opening trade: skipped when seen, applied otherwise *)
    rewrite (decide_True (P := Trade.position_effect trade = OPEN)) by done.
    case_decide as Hseen.
    + destruct (IH self close_trades)
        as (self' & queued & -> & Hopen & Hclosing & Hsub & Hlater).
      exists self', queued. rewrite apply_trade_guarded by done. simpl.
      repeat split; done.
    + destruct (apply_trade_alone self trade) as (self1 & -> & Hsub1). simpl.
      destruct (IH self1 close_trades)
        as (self' & queued & -> & Hopen & Hclosing & Hsub & Hlater).
      exists self', queued. repeat split; [done|done|set_solver|done].
  - (* a closing trade: skipped when seen, queued otherwise *)
    rewrite (decide_False (P := Trade.position_effect trade = OPEN)) by done.
    case_decide as Hseen.
    + destruct (IH self close_trades)
        as (self' & queued & -> & Hopen & Hclosing & Hsub & Hlater).
      exists self', queued. repeat split; [done|done|done|].
      intros later Hl. rewrite apply_trade_guarded by set_solver. simpl.
      by apply Hlater.
    + destruct (IH self (close_trades ++ [trade]))
        as (self' & queued & -> & Hopen & Hclosing & Hsub & Hlater).
      exists self', (trade :: queued). rewrite <- app_assoc. simpl.
      split; [done|]. split; [done|]. split.
      { constructor; [|done]. unfold closing, opening.
        by rewrite bool_decide_eq_false_2. }
      split; [done|]. intros later Hl.
      destruct (apply_trade_alone later trade) as (later1 & -> & Hsub1). simpl.
      apply Hlater. set_solver.
Qed.

(** C5: [fast_forward] returns, and the frozen cash it leaves is the sum of
    the reservations of the active orders whatever it was before.  On a batch
    of trades its first loop applies opening trades only and hands the second
    loop a queue of closing trades only, so that every opening trade is
    applied before any closing one; the result is that of applying all opening
    trades of the batch, in their order, followed by all its closing trades,
    in theirs. *)
Theorem fast_forward_resynchronises self (orders : list Order.t)
    (trades : option (list Trade.t)) :
  let reserved :=
    sum_Qc (_frozen_cash_of_order env <$> List.filter Order.is_active orders) in
  (∃ self', fast_forward env self orders trades = Some self'
     ∧ _frozen_cash self' = reserved)
  ∧ (∀ batch, trades = Some batch →
       (∃ opened queue,
          replay_open_trades env self [] batch = Some (opened, queue)
          ∧ replay_close_trades env self (List.filter opening batch) = Some opened
          ∧ Forall (λ trade, closing trade = true) queue
          ∧ fast_forward env self orders trades
            = self' ← replay_close_trades env opened queue;
              Some (set_frozen_cash self' reserved))
       ∧ fast_forward env self orders trades
         = self' ← replay_close_trades env self
                     (List.filter opening batch ++ List.filter closing batch);
           Some (set_frozen_cash self' reserved)).
Proof.
  intros reserved.
  assert (Hbatch : ∀ batch, trades = Some batch →
    (∃ opened queue,
       replay_open_trades env self [] batch = Some (opened, queue)
       ∧ replay_close_trades env self (List.filter opening batch) = Some opened
       ∧ Forall (λ trade, closing trade = true) queue
       ∧ fast_forward env self orders trades
         = self' ← replay_close_trades env opened queue;
           Some (set_frozen_cash self' reserved))
    ∧ fast_forward env self orders trades
      = self' ← replay_close_trades env self
                  (List.filter opening batch ++ List.filter closing batch);
        Some (set_frozen_cash self' reserved)).
  { intros batch ->.
    destruct (replay_open_trades_spec batch self [])
      as (opened & queue & Hrun & Hopen & Hclosing & Hsub & Hlater).
    simpl in Hrun.
    assert (Hff : fast_forward env self orders (Some batch)
                  = self' ← replay_close_trades env opened queue;
                    Some (set_frozen_cash self' reserved)).
    { unfold fast_forward. destruct batch as [|trade batch].
      - simpl in Hrun. by inversion Hrun.
      - cbv beta iota. by rewrite Hrun. }
    split.
    - exists opened, queue. by repeat split.
    - rewrite Hff, replay_close_trades_app, Hopen. simpl.
      by rewrite (Hlater opened). }
  split; [|exact Hbatch].
  destruct trades as [batch|].
  - destruct (Hbatch batch eq_refl) as [_ ->].
    destruct (replay_close_trades_total
                (List.filter opening batch ++ List.filter closing batch) self)
      as (self' & -> & _). simpl. eauto.
  - unfold fast_forward. simpl. eauto.
Qed.

(** ** Snapshot restore *)

Lemma foldl_Qcplus (l : list Qc) (c : Qc) :
  foldl Qcplus c l = (c + sum_Qc l)%Qc.
Proof.
  unfold sum_Qc. revert c. induction l as [|x l IH]; intros c; simpl.
  - ring.
  - rewrite IH, (IH (0 + x)%Qc). ring.
Qed.

(** The loop of [set_state] over items with distinct keys that are not yet
    in the collection: each position is created afresh, and the items whose
    rate changed add their margin difference. *)
Lemma set_state_loop_spec (items : list (string * snapshot)) :
  ∀ positions margin_changed positions' margin_changed',
  NoDup items.*1 →
  (∀ k, k ∈ items.*1 → positions !! k = None) →
  set_state_loop (positions, margin_changed) items
  = Some (positions', margin_changed') →
  margin_changed'
  = (margin_changed
     + sum_Qc (margin_difference <$> List.filter rate_changed items))%Qc.
Proof.
  induction items as [|[k v] items IH];
    intros positions c positions' c' Hnd Hfresh Hrun.
  { inversion Hrun; subst. unfold sum_Qc. simpl. ring. }
  rewrite fmap_cons in Hnd, Hfresh. simpl in Hnd, Hfresh.
  apply NoDup_cons in Hnd as [Hk Hnd].
  assert (Hnone : positions !! k = None) by (apply Hfresh, elem_of_cons; by left).
  assert (Hrest : ∀ p q k', k' ∈ items.*1 →
            <[k:=p]> (<[k:=q]> positions) !! k' = None).
  { intros p q k' Hin. rewrite !lookup_insert_ne by (by intros ->).
    apply Hfresh, elem_of_cons. by right. }
  simpl in Hrun. unfold set_state_step, get_or_create in Hrun.
  rewrite Hnone in Hrun. simpl.
  unfold rate_changed at 1, restored. simpl.
  destruct (Position.snapshot_margin_rate v) as [rate|] eqn:Hrate.
  - case_bool_decide.
    + destruct (decide (_ = 0%Qc)); [done|].
      apply IH in Hrun; [|done|by apply Hrest]. rewrite Hrun. simpl.
      unfold margin_difference at 2, restored. simpl. rewrite Hrate.
      unfold sum_Qc at 2. simpl. rewrite foldl_Qcplus.
      change (list_fmap _ _ margin_difference ?l) with (margin_difference <$> l).
      match goal with |- context [(?a / ?b)%Qc] => generalize (a / b)%Qc end.
      intros x. ring.
    + apply IH in Hrun; [done|done|by apply Hrest].
  - apply IH in Hrun; [done|done|by apply Hrest].
Qed.

Lemma set_state_loop_total (items : list (string * snapshot)) :
  ∀ positions margin_changed,
  NoDup items.*1 →
  (∀ k, k ∈ items.*1 → positions !! k = None) →
  (∀ item, item ∈ items → rate_changed item = true →
     Position.margin_rate (restored item) ≠ 0%Qc) →
  is_Some (set_state_loop (positions, margin_changed) items).
Proof.
  induction items as [|[k v] items IH];
    intros positions c Hnd Hfresh Hrates; [by eexists|].
  rewrite fmap_cons in Hnd, Hfresh. simpl in Hnd, Hfresh.
  apply NoDup_cons in Hnd as [Hk Hnd].
  assert (Hnone : positions !! k = None) by (apply Hfresh, elem_of_cons; by left).
  assert (Hrest : ∀ p q k', k' ∈ items.*1 →
            <[k:=p]> (<[k:=q]> positions) !! k' = None).
  { intros p q k' Hin. rewrite !lookup_insert_ne by (by intros ->).
    apply Hfresh, elem_of_cons. by right. }
  assert (Hthis := Hrates (k, v) ltac:(apply elem_of_cons; by left)).
  assert (Hothers : ∀ item, item ∈ items → rate_changed item = true →
            Position.margin_rate (restored item) ≠ 0%Qc).
  { intros item Hin. apply Hrates, elem_of_cons. by right. }
  simpl. unfold set_state_step, get_or_create. rewrite Hnone.
  unfold rate_changed, restored in Hthis. simpl in Hthis.
  destruct (Position.snapshot_margin_rate v) as [rate|].
  - case_bool_decide.
    + rewrite decide_False by (by apply Hthis).
      apply IH; [done|by apply Hrest|done].
    + apply IH; [done|by apply Hrest|done].
  - apply IH; [done|by apply Hrest|done].
Qed.

(** C9: a snapshot that [set_state] accepts restores frozen cash and the
    replay guard as recorded, and total cash is the recorded total cash plus,
    over the positions whose recorded margin rate is further than 1e-6 from
    the resolved rate, the sum of margin × (recorded rate − resolved rate) /
    resolved rate; the other positions add nothing.  The snapshot is accepted
    whenever no such position resolves a zero rate. *)
Theorem set_state_restores self (state : AccountState.t snapshot) :
  (∀ self', set_state self state = Some self' →
     _frozen_cash self' = AccountState.frozen_cash state
     ∧ _backward_trade_set self'
       = list_to_set (AccountState.backward_trade_set state)
     ∧ _total_cash self'
       = (AccountState.total_cash state
          + sum_Qc (margin_difference
                      <$> List.filter rate_changed
                            (map_to_list (AccountState.positions state))))%Qc)
  ∧ ((∀ item, item ∈ map_to_list (AccountState.positions state) →
        rate_changed item = true →
        Position.margin_rate (restored item) ≠ 0%Qc) →
     is_Some (set_state self state)).
Proof.
  pose proof (NoDup_fst_map_to_list (AccountState.positions state)) as Hnd.
  split.
  - intros self' Hrun. unfold set_state in Hrun. simpl in Hrun.
    destruct (set_state_loop _ _) as [[positions c]|] eqn:Hloop; [|done].
    inversion Hrun; subst; clear Hrun. simpl.
    apply set_state_loop_spec in Hloop; [|done|by intros; apply lookup_empty].
    rewrite Hloop. repeat split. ring.
  - intros Hrates. unfold set_state. simpl.
    destruct (set_state_loop_total (map_to_list (AccountState.positions state))
                ∅ 0%Qc Hnd ltac:(by intros; apply lookup_empty) Hrates)
      as [[positions c] ->]. by eauto.
Qed.

End Properties.

(** ** The properties on the concrete account *)

Local Ltac by_compute :=
  match goal with |- ?G => apply (bool_decide_unpack G) end; vm_compute; exact I.

Lemma order_close_old_close_today_open_witness :
  6 > 0
  ∧ Position.buy_old_quantity (positions_getitem example_account "IF1706") = 5
  ∧ Position.buy_today_quantity (positions_getitem example_account "IF1706") = 3
  ∧ order example_account "IF1706" (-6) "MarketOrder" false
    = decomposition_spec "IF1706" SELL "MarketOrder" 6 5 3
  ∧ order example_account "IF1706" (-6) "MarketOrder" false
    = [Request.mk "IF1706" 5 SELL CLOSE "MarketOrder";
       Request.mk "IF1706" 1 SELL CLOSE_TODAY "MarketOrder"]
  ∧ order example_account "IF1706" (-10) "MarketOrder" false
    = [Request.mk "IF1706" 5 SELL CLOSE "MarketOrder";
       Request.mk "IF1706" 3 SELL CLOSE_TODAY "MarketOrder";
       Request.mk "IF1706" 2 SELL OPEN "MarketOrder"].
Proof.
  destruct (order_close_old_close_today_open example_account "IF1706" "MarketOrder")
    as (Hany & Hsell & _).
  assert (H6 : 6 > 0) by lia.
  split; [exact H6|]. split; [reflexivity|]. split; [reflexivity|].
  split; [exact (proj2 (Hany 6 H6))|]. exact (Hsell eq_refl eq_refl).
Defined.

Lemma order_zero_emits_close_leg_witness :
  Position.buckets_nonneg (positions_getitem example_account "IF1706")
  ∧ Position.buy_old_quantity (positions_getitem example_account "IF1706") ≠ 0
  ∧ order example_account "IF1706" 0 "MarketOrder" false
    = [Request.mk "IF1706" 0 SELL CLOSE "MarketOrder"]
  ∧ order example_account "IF1706" 8 "MarketOrder" true
    = [Request.mk "IF1706" 0 SELL CLOSE "MarketOrder"].
Proof.
  assert (Hinv : Position.buckets_nonneg (positions_getitem example_account "IF1706")).
  { unfold Position.buckets_nonneg. split; [|split; [|split]]; by_compute. }
  assert (Hne : Position.buy_old_quantity (positions_getitem example_account "IF1706")
                ≠ 0) by by_compute.
  destruct (order_zero_emits_close_leg example_account "IF1706" "MarketOrder" Hinv Hne)
    as (Hzero & Htarget & _).
  split; [exact Hinv|]. split; [exact Hne|]. split; [exact Hzero|exact Htarget].
Defined.

(** C1, counterexample: in the program the sum is a float sum.  The account
    [Binary64.rounding_account] is worth 113954.71 before the settlement
    (positive, so no wipeout); after it total cash is 95873.64000000001 and
    total cash + margin + holding pnl is 113954.71000000002, which Python's
    [==] and Leibniz equality both tell from 113954.71. *)
Lemma settlement_sum_is_rounded :
  let total_value := Binary64.total_value Binary64.held_margin Binary64.held_holding_pnl in
  let margin := Binary64.margin Binary64.held_margin in
  let holding_pnl := Binary64.holding_pnl Binary64.held_holding_pnl in
  let after :=
    Binary64._settlement Binary64.held_margin Binary64.held_holding_pnl
      Binary64.held_de_listed Binary64.held_buy_quantity Binary64.held_sell_quantity
      Binary64.roll Binary64.rounding_account in
  PrimFloat.ltb 0%float (total_value Binary64.rounding_account) = true
  ∧ total_value Binary64.rounding_account = 0x1.bd22b5c28f5c3p+16%float
  ∧ Binary64._total_cash after = 0x1.7681a3d70a3d8p+16%float
  ∧ PrimFloat.add (PrimFloat.add (Binary64._total_cash after) (margin after))
      (holding_pnl after) = 0x1.bd22b5c28f5c4p+16%float
  ∧ PrimFloat.eqb
      (PrimFloat.add (PrimFloat.add (Binary64._total_cash after) (margin after))
         (holding_pnl after))
      (total_value Binary64.rounding_account) = false
  ∧ PrimFloat.add (PrimFloat.add (Binary64._total_cash after) (margin after))
      (holding_pnl after)
    ≠ total_value Binary64.rounding_account.
Proof.
  intros total_value margin holding_pnl after.
  assert (Hdiffers :
    PrimFloat.eqb
      (PrimFloat.add (PrimFloat.add (Binary64._total_cash after) (margin after))
         (holding_pnl after))
      (total_value Binary64.rounding_account) = false) by (vm_compute; reflexivity).
  repeat split; try (vm_compute; reflexivity); try exact Hdiffers.
  intros Hsame. rewrite Hsame in Hdiffers. vm_compute in Hdiffers. discriminate Hdiffers.
Qed.

(** C1, as the program has it: when the insolvency wipeout does not fire,
    the settlement sets total cash to the total value before the roll minus
    the margin of the rolled positions minus their holding pnl, each
    subtraction a float subtraction; and in exact arithmetic that total cash
    plus the margin plus the holding pnl is the total value before the roll,
    so that in the program the sum is that value up to the rounding of the
    four operations. *)
Theorem settlement_rederives_total_cash :
  (∀ (P : Type) (position_margin position_holding_pnl : P → float)
     (position_is_de_listed : P → bool)
     (position_buy_quantity position_sell_quantity : P → Z)
     (position_apply_settlement : P → P) (self : @Binary64.t P),
     let after :=
       Binary64._settlement position_margin position_holding_pnl
         position_is_de_listed position_buy_quantity position_sell_quantity
         position_apply_settlement self in
     PrimFloat.leb (Binary64.total_value position_margin position_holding_pnl self)
       0%float = false
     ∨ Binary64.forced_liquidation self = false →
     Binary64._total_cash after
     = PrimFloat.sub
         (PrimFloat.sub (Binary64.total_value position_margin position_holding_pnl self)
            (Binary64.margin position_margin after))
         (Binary64.holding_pnl position_holding_pnl after))
  ∧ (∀ (P snapshot : Type) (model : Position.Model P snapshot) (self : @t P),
       (0 < total_value self)%Qc ∨ forced_liquidation self = false →
       (_total_cash (_settlement self) + margin (_settlement self)
          + holding_pnl (_settlement self))%Qc = total_value self
       ∧ _total_cash (_settlement self)
         = (total_value self - margin (_settlement self)
              - holding_pnl (_settlement self))%Qc).
Proof.
  split.
  - intros P pm ph pd pb ps pa self after Hlive. subst after.
    unfold Binary64._settlement. cbn [Binary64.forced_liquidation].
    assert (Hgate : PrimFloat.leb (Binary64.total_value pm ph self) 0%float
                    && Binary64.forced_liquidation self = false).
    { destruct Hlive as [-> | ->]; [done|by rewrite andb_false_r]. }
    rewrite Hgate. reflexivity.
  - intros P snapshot model self. apply settlement_conserves_exact.
Qed.

Lemma settlement_rederives_total_cash_witness :
  (PrimFloat.leb
     (Binary64.total_value Binary64.held_margin Binary64.held_holding_pnl
        Binary64.rounding_account) 0%float = false
   ∨ Binary64.forced_liquidation Binary64.rounding_account = false)
  ∧ ((0 < total_value example_account)%Qc ∨ forced_liquidation example_account = false)
  ∧ Binary64._total_cash
      (Binary64._settlement Binary64.held_margin Binary64.held_holding_pnl
         Binary64.held_de_listed Binary64.held_buy_quantity Binary64.held_sell_quantity
         Binary64.roll Binary64.rounding_account)
    = PrimFloat.sub
        (PrimFloat.sub
           (Binary64.total_value Binary64.held_margin Binary64.held_holding_pnl
              Binary64.rounding_account)
           (Binary64.margin Binary64.held_margin
              (Binary64._settlement Binary64.held_margin Binary64.held_holding_pnl
                 Binary64.held_de_listed Binary64.held_buy_quantity
                 Binary64.held_sell_quantity Binary64.roll Binary64.rounding_account)))
        (Binary64.holding_pnl Binary64.held_holding_pnl
           (Binary64._settlement Binary64.held_margin Binary64.held_holding_pnl
              Binary64.held_de_listed Binary64.held_buy_quantity
              Binary64.held_sell_quantity Binary64.roll Binary64.rounding_account))
  ∧ (_total_cash (_settlement example_account) + margin (_settlement example_account)
       + holding_pnl (_settlement example_account))%Qc
    = total_value example_account.
Proof.
  assert (Hfloat : PrimFloat.leb
            (Binary64.total_value Binary64.held_margin Binary64.held_holding_pnl
               Binary64.rounding_account) 0%float = false
          ∨ Binary64.forced_liquidation Binary64.rounding_account = false).
  { left. vm_compute. reflexivity. }
  assert (Hlive : (0 < total_value example_account)%Qc
                  ∨ forced_liquidation example_account = false).
  { left. by_compute. }
  destruct settlement_rederives_total_cash as [Hprogram Hexact].
  split; [exact Hfloat|]. split; [exact Hlive|]. split.
  - exact (Hprogram Binary64.Holding Binary64.held_margin Binary64.held_holding_pnl
             Binary64.held_de_listed Binary64.held_buy_quantity
             Binary64.held_sell_quantity Binary64.roll Binary64.rounding_account
             Hfloat).
  - exact (proj1 (Hexact _ _ _ example_account Hlive)).
Defined.

Lemma settlement_forced_liquidation_witness :
  (total_value insolvent_account ≤ 0)%Qc
  ∧ forced_liquidation insolvent_account = true
  ∧ _positions (_settlement insolvent_account) = ∅
  ∧ _total_cash (_settlement insolvent_account) = 0%Qc.
Proof.
  assert (Hle : (total_value insolvent_account ≤ 0)%Qc) by by_compute.
  split; [exact Hle|]. split; [reflexivity|].
  exact (settlement_forced_liquidation insolvent_account Hle eq_refl).
Defined.

Lemma apply_trade_replay_is_noop_witness :
  Trade.exec_id replayed_trade ∈ _backward_trade_set example_account
  ∧ _apply_trade example_env example_account replayed_trade (Some example_order)
    = Some example_account
  ∧ _on_trade example_env 1%nat example_account 1%nat replayed_trade None
    = Some example_account.
Proof.
  assert (Hseen : Trade.exec_id replayed_trade ∈ _backward_trade_set example_account)
    by by_compute.
  split; [exact Hseen|]. split.
  - exact (proj1 (apply_trade_replay_is_noop example_env example_account replayed_trade
                    (Some example_order) 1%nat 1%nat Hseen)).
  - exact (proj2 (apply_trade_replay_is_noop example_env example_account replayed_trade
                    None 1%nat 1%nat Hseen)).
Defined.

Lemma apply_trade_releases_frozen_cash_witness :
  (Trade.exec_id closing_trade ∉ _backward_trade_set example_account)
  ∧ (Trade.last_quantity closing_trade = Order.quantity example_order
     ∨ Order.quantity example_order ≠ 0)
  ∧ ∃ self', _apply_trade example_env example_account closing_trade (Some example_order)
             = Some self'
      ∧ _frozen_cash self'
        = (_frozen_cash example_account
           - Z2Qc 4 / Z2Qc 10 * _frozen_cash_of_order example_env example_order)%Qc.
Proof.
  assert (Hnew : Trade.exec_id closing_trade ∉ _backward_trade_set example_account)
    by by_compute.
  assert (Hq : Trade.last_quantity closing_trade = Order.quantity example_order
               ∨ Order.quantity example_order ≠ 0).
  { right. by_compute. }
  split; [exact Hnew|]. split; [exact Hq|].
  exact (apply_trade_releases_frozen_cash example_env example_account closing_trade
           example_order Hnew Hq).
Defined.

Lemma unsolicited_update_releases_frozen_cash_witness :
  (Order.filled_quantity example_order = 0 ∨ Order.quantity example_order ≠ 0)
  ∧ register_event example_env false 1%nat example_account
      (Event.ORDER_CREATION_REJECT 1%nat example_order)
    = Some (set_frozen_cash example_account
              (_frozen_cash example_account
               - Q2Qc (6 # 10) * _frozen_cash_of_order example_env example_order)%Qc).
Proof.
  assert (Hq : Order.filled_quantity example_order = 0
               ∨ Order.quantity example_order ≠ 0).
  { right. by_compute. }
  split; [exact Hq|].
  destruct (unsolicited_update_releases_frozen_cash example_env false 1%nat
              example_account example_order
              (Event.ORDER_CREATION_REJECT 1%nat example_order)
              (or_introl eq_refl) Hq) as (_ & _ & Hexample).
  exact (Hexample eq_refl eq_refl eq_refl).
Defined.

Lemma fast_forward_resynchronises_witness :
  (∃ self', fast_forward example_env example_account [example_order]
              (Some [closing_trade; replayed_trade; opening_trade]) = Some self'
     ∧ _frozen_cash self'
       = sum_Qc (_frozen_cash_of_order example_env
                   <$> List.filter Order.is_active [example_order]))
  ∧ fast_forward example_env example_account [example_order]
      (Some [closing_trade; replayed_trade; opening_trade])
    = self' ← replay_close_trades example_env example_account
                [opening_trade; closing_trade; replayed_trade];
      Some (set_frozen_cash self'
              (sum_Qc (_frozen_cash_of_order example_env
                         <$> List.filter Order.is_active [example_order]))).
Proof.
  destruct (fast_forward_resynchronises example_env example_account [example_order]
              (Some [closing_trade; replayed_trade; opening_trade]))
    as (Hfrozen & Hbatch).
  split; [exact Hfrozen|]. exact (proj2 (Hbatch _ eq_refl)).
Defined.

Lemma set_state_restores_witness :
  (∀ item, item ∈ map_to_list (AccountState.positions example_state) →
     rate_changed item = true →
     Position.margin_rate (restored item) ≠ 0%Qc)
  ∧ ∃ self', set_state example_account example_state = Some self'
      ∧ _frozen_cash self' = AccountState.frozen_cash example_state
      ∧ _backward_trade_set self'
        = list_to_set (AccountState.backward_trade_set example_state)
      ∧ _total_cash self'
        = (AccountState.total_cash example_state
           + sum_Qc (margin_difference
                       <$> List.filter rate_changed
                             (map_to_list (AccountState.positions example_state))))%Qc.
Proof.
  assert (Hrates : ∀ item,
            item ∈ map_to_list (AccountState.positions example_state) →
            rate_changed item = true →
            Position.margin_rate (restored item) ≠ 0%Qc).
  { intros item Hin _. unfold example_state in Hin. simpl in Hin.
    rewrite map_to_list_singleton in Hin.
    apply list_elem_of_singleton in Hin as ->. by_compute. }
  split; [exact Hrates|].
  destruct (set_state_restores example_account example_state) as (Hsome & Htotal).
  destruct (Htotal Hrates) as [self' Hrun].
  exists self'. split; [exact Hrun|]. exact (Hsome self' Hrun).
Defined.

(** * Further properties of the account *)

Section Behaviour.
Context {P snapshot : Type} `{!Position.Model P snapshot}.
Context {Style : Type}.
Variable env : Environment.t.

Implicit Types (self : @t P) (style : Style) (order_book_id : string).

(** ** Settlement *)

Lemma settle_position_settled (positions : gmap string P) k (p : P) :
  settle_position positions (k, p)
  = match settled p with
    | Some p' => <[k := p']> positions
    | None => delete k positions
    end.
Proof.
  unfold settle_position, settled.
  destruct (Position.is_de_listed p && _); [done|]. by destruct (_ && _).
Qed.

Lemma foldl_settle_position_lookup (items : list (string * P)) :
  ∀ (positions : gmap string P) k,
  NoDup items.*1 →
  foldl settle_position positions items !! k
  = match (list_to_map items : gmap string P) !! k with
    | Some p => settled p
    | None => positions !! k
    end.
Proof.
  induction items as [|[k0 p0] items IH]; intros positions k Hnd; [done|].
  rewrite fmap_cons in Hnd. apply NoDup_cons in Hnd as [Hk0 Hnd].
  cbn [foldl]. rewrite IH by done.
  rewrite settle_position_settled, list_to_map_cons.
  destruct (decide (k = k0)) as [->|Hne].
  - rewrite lookup_insert_eq.
    rewrite (not_elem_of_list_to_map_1 items k0) by done.
    destruct (settled p0); [by rewrite lookup_insert_eq|by rewrite lookup_delete_eq].
  - rewrite lookup_insert_ne by done.
    destruct (list_to_map items !! k); [done|].
    destruct (settled p0); [by rewrite lookup_insert_ne|by rewrite lookup_delete_ne].
Qed.

Lemma settle_positions_omap (positions : gmap string P) :
  foldl settle_position positions (map_to_list positions) = omap settled positions.
Proof.
  apply map_eq. intros k.
  rewrite foldl_settle_position_lookup by apply NoDup_fst_map_to_list.
  rewrite list_to_map_to_list, lookup_omap.
  by destruct (positions !! k).
Qed.

Lemma sum_Qc_nil : sum_Qc [] = 0%Qc.
Proof. reflexivity. Qed.

Lemma margin_no_positions self : _positions self = ∅ → margin self = 0%Qc.
Proof. unfold margin. intros ->. by rewrite map_to_list_empty. Qed.

Lemma holding_pnl_no_positions self : _positions self = ∅ → holding_pnl self = 0%Qc.
Proof. unfold holding_pnl. intros ->. by rewrite map_to_list_empty. Qed.

(** The two outcomes of [_settlement], field by field. *)
Lemma settlement_outcome self :
  _settlement self
  = if wiped_out self
    then mk ∅ 0%Qc (_frozen_cash self) ∅ (forced_liquidation self)
    else
      let rolled := set_positions self (omap settled (_positions self)) in
      mk (_positions rolled)
         (total_value self - margin rolled - holding_pnl rolled)%Qc
         (_frozen_cash self) ∅ (forced_liquidation self).
Proof.
  unfold _settlement, wiped_out. rewrite settle_positions_omap.
  cbn [forced_liquidation set_total_cash set_positions].
  destruct (bool_decide _ && _); [done|].
  unfold set_backward_trade_set, set_total_cash, set_positions. reflexivity.
Qed.

(** X1: a settlement that does not wipe the account out keeps, for every
    instrument, exactly the roll of the position held before, except that
    de-listed positions with exposure and flat positions are gone; it creates
    no position.  Frozen cash is not touched and the replay guard is empty
    afterwards, wiped out or not. *)
Theorem settlement_rolls_positions self :
  _positions (_settlement self)
  = (if wiped_out self then ∅ else omap settled (_positions self))
  ∧ _frozen_cash (_settlement self) = _frozen_cash self
  ∧ _backward_trade_set (_settlement self) = ∅
  ∧ forced_liquidation (_settlement self) = forced_liquidation self.
Proof. rewrite settlement_outcome. by destruct (wiped_out self). Qed.

(** X2: a position on a de-listed instrument that still has exposure, and a
    position that is flat, are not in the collection after a settlement,
    whatever the total value of the account. *)
Theorem settlement_drops_de_listed_and_flat self k (p : P) :
  _positions self !! k = Some p →
  (Position.is_de_listed p = true
   ∧ Position.buy_quantity p + Position.sell_quantity p ≠ 0)
  ∨ (Position.buy_quantity p = 0 ∧ Position.sell_quantity p = 0) →
  _positions (_settlement self) !! k = None.
Proof.
  intros Hp Hgone. rewrite settlement_outcome.
  destruct (wiped_out self); simpl; [done|].
  rewrite lookup_omap, Hp. simpl. unfold settled.
  destruct Hgone as [[-> Hexp] | [Hb Hs]].
  - by rewrite bool_decide_eq_true_2.
  - rewrite !(bool_decide_eq_true_2 (_ = 0)) by done.
    by destruct (_ && _).
Qed.

(** X3: a settlement that wipes the account out leaves it worth exactly
    zero: with no position left both sums are empty and total cash is zero. *)
Theorem settlement_total_value self :
  wiped_out self = true →
  total_value (_settlement self) = 0%Qc.
Proof.
  intros Hwiped. rewrite settlement_outcome, Hwiped.
  unfold total_value. rewrite margin_no_positions, holding_pnl_no_positions by done.
  reflexivity.
Qed.

(** ** Events and frozen cash *)

(** X4: an event addressed to another account changes nothing, whatever it
    carries: the trade, pending-new, reject, update and cancellation
    listeners all return the account as it was. *)
Theorem events_for_other_accounts_are_ignored
    (aggressive : bool) (me account : nat) self (trade : Trade.t)
    (order : Order.t) (order' : option Order.t) :
  me ≠ account →
  register_event env aggressive me self (Event.TRADE account trade order')
  = Some self
  ∧ register_event env aggressive me self (Event.ORDER_PENDING_NEW account order)
    = Some self
  ∧ register_event env aggressive me self (Event.ORDER_CREATION_REJECT account order)
    = Some self
  ∧ register_event env aggressive me self (Event.ORDER_UNSOLICITED_UPDATE account order)
    = Some self
  ∧ register_event env aggressive me self (Event.ORDER_CANCELLATION_PASS account order)
    = Some self.
Proof.
  intros Hne. simpl.
  unfold _on_trade, _on_order_pending_new, _on_order_unsolicited_update.
  by rewrite !decide_True.
Qed.

Lemma set_frozen_cash_same self : set_frozen_cash self (_frozen_cash self) = self.
Proof. by destruct self. Qed.

Lemma set_frozen_cash_twice self c c' :
  set_frozen_cash (set_frozen_cash self c) c' = set_frozen_cash self c'.
Proof. done. Qed.

(** ** Trades *)

Lemma apply_trade_records self trade order self' :
  _apply_trade env self trade order = Some self' →
  Trade.exec_id trade ∈ _backward_trade_set self'.
Proof.
  unfold _apply_trade. case_decide as Hseen; [by intros [= <-]|].
  destruct (get_or_create _ _) as [positions position].
  destruct (Position.apply_trade _ _) as [position' delta_cash].
  destruct order as [order|].
  - case_decide.
    + destruct (py_div _ _); simpl; [|done]. intros [= <-]. simpl. set_solver.
    + intros [= <-]. simpl. set_solver.
  - intros [= <-]. simpl. set_solver.
Qed.

(** X7: once a trade has been applied, applying it again, with any order or
    none, changes nothing: the account absorbs redelivery. *)
Theorem apply_trade_at_most_once self trade (order order' : option Order.t) self' :
  _apply_trade env self trade order = Some self' →
  _apply_trade env self' trade order' = Some self'.
Proof. intros Hrun. eapply apply_trade_guarded, apply_trade_records, Hrun. Qed.

(** X8: a trade that is not a replay touches the position of its own
    instrument only, creating it when the account had none: the collection
    afterwards is the old one with that entry replaced by the position after
    the trade; total cash loses the transaction cost and gains the realized
    cash the position reports; the exec id joins the replay guard; and without
    an order frozen cash stays. *)
Theorem apply_trade_updates_own_position self trade (order : option Order.t) self' :
  Trade.exec_id trade ∉ _backward_trade_set self →
  _apply_trade env self trade order = Some self' →
  let position := positions_getitem self (Trade.order_book_id trade) in
  _positions self'
  = <[Trade.order_book_id trade := (Position.apply_trade position trade).1]>
      (_positions self)
  ∧ _total_cash self'
    = (_total_cash self - Trade.transaction_cost trade
       + (Position.apply_trade position trade).2)%Qc
  ∧ _backward_trade_set self' = {[Trade.exec_id trade]} ∪ _backward_trade_set self
  ∧ forced_liquidation self' = forced_liquidation self
  ∧ (order = None → _frozen_cash self' = _frozen_cash self).
Proof.
  intros Hnew Hrun position. unfold _apply_trade in Hrun.
  rewrite decide_False in Hrun by done.
  assert (Hgoc : ∃ positions,
            get_or_create (_positions self) (Trade.order_book_id trade)
            = (positions, position)
            ∧ ∀ p, <[Trade.order_book_id trade := p]> positions
                   = <[Trade.order_book_id trade := p]> (_positions self)).
  { unfold get_or_create, position, positions_getitem.
    destruct (_positions self !! _); simpl; eexists; split; try done.
    intros p. by rewrite insert_insert_eq. }
  destruct Hgoc as (positions & Hgoc & Hins). rewrite Hgoc in Hrun.
  destruct (Position.apply_trade position trade) as [position' delta_cash].
  assert (Hdone : ∃ c, self'
            = mk (<[Trade.order_book_id trade := position']> (_positions self))
                 (_total_cash self - Trade.transaction_cost trade + delta_cash)%Qc
                 c ({[Trade.exec_id trade]} ∪ _backward_trade_set self)
                 (forced_liquidation self)
            ∧ (order = None → c = _frozen_cash self)).
  { rewrite Hins in Hrun. destruct order as [order|].
    - case_decide.
      + destruct (py_div _ _); simpl in Hrun; [|done].
        injection Hrun as <-. eexists. by split.
      + injection Hrun as <-. eexists. by split.
    - injection Hrun as <-. eexists. by split. }
  destruct Hdone as (c & -> & Hc). simpl. repeat split; try done.
Qed.

(** ** Cold replay *)

Lemma replay_close_trades_seen (trades : list Trade.t) self :
  Forall (λ trade, Trade.exec_id trade ∈ _backward_trade_set self) trades →
  replay_close_trades env self trades = Some self.
Proof.
  induction 1 as [|trade trades Hseen _ IH]; simpl; [done|].
  by rewrite apply_trade_guarded.
Qed.

Lemma replay_close_trades_records (trades : list Trade.t) : ∀ self self',
  replay_close_trades env self trades = Some self' →
  _backward_trade_set self ⊆ _backward_trade_set self'
  ∧ Forall (λ trade, Trade.exec_id trade ∈ _backward_trade_set self') trades.
Proof.
  induction trades as [|trade trades IH]; intros self self'; simpl.
  { intros [= <-]. by split. }
  destruct (_apply_trade env self trade None) as [self1|] eqn:Hstep; simpl; [|done].
  intros Hrest. destruct (IH _ _ Hrest) as [Hsub Hall].
  destruct (apply_trade_alone env self trade) as (self1' & Hstep' & Hsub1).
  rewrite Hstep in Hstep'. injection Hstep' as <-.
  split; [by etrans|]. constructor; [|done].
  apply Hsub. by eapply apply_trade_records.
Qed.

(** [fast_forward] on a batch, as the replay of its opening trades followed
    by its closing trades. *)
Lemma fast_forward_sorted self (orders : list Order.t) (batch : list Trade.t) :
  fast_forward env self orders (Some batch)
  = self' ← replay_close_trades env self
              (List.filter opening batch ++ List.filter closing batch);
    Some (set_frozen_cash self'
            (sum_Qc (_frozen_cash_of_order env
                       <$> List.filter Order.is_active orders))).
Proof.
  destruct (replay_open_trades_spec env batch self [])
    as (opened & queue & Hrun & Hopen & Hclosing & Hsub & Hlater).
  simpl in Hrun. rewrite replay_close_trades_app, Hopen. simpl.
  rewrite <- (Hlater opened) by done.
  unfold fast_forward. destruct batch as [|trade batch].
  - simpl in Hrun. by injection Hrun as <- <-.
  - cbv beta iota. by rewrite Hrun.
Qed.

Lemma filter_opening_closing_all (Q : Trade.t → Prop) (batch : list Trade.t) :
  Forall Q (List.filter opening batch ++ List.filter closing batch) ↔ Forall Q batch.
Proof.
  rewrite Forall_app. induction batch as [|trade batch IH]; simpl; [done|].
  unfold closing at 1. rewrite Forall_cons, <- IH.
  destruct (opening trade); simpl; rewrite Forall_cons; tauto.
Qed.

(** X9: a batch whose trades are all in the replay guard already (the
    snapshot reflects them) is replayed without any effect on positions,
    total cash or the guard: only frozen cash is recomputed. *)
Theorem fast_forward_skips_recorded_trades self (orders : list Order.t)
    (batch : list Trade.t) :
  Forall (λ trade, Trade.exec_id trade ∈ _backward_trade_set self) batch →
  fast_forward env self orders (Some batch)
  = Some (set_frozen_cash self
            (sum_Qc (_frozen_cash_of_order env
                       <$> List.filter Order.is_active orders))).
Proof.
  intros Hseen. rewrite fast_forward_sorted.
  by rewrite replay_close_trades_seen by by apply filter_opening_closing_all.
Qed.

(** X10: [fast_forward] is idempotent: running it a second time on the same
    orders and trades returns the account the first run produced. *)
Theorem fast_forward_idempotent self (orders : list Order.t)
    (trades : option (list Trade.t)) self' :
  fast_forward env self orders trades = Some self' →
  fast_forward env self' orders trades = Some self'.
Proof.
  destruct trades as [batch|].
  - rewrite !fast_forward_sorted.
    destruct (replay_close_trades env self _) as [replayed|] eqn:Hrun; simpl; [|done].
    intros [= <-].
    apply replay_close_trades_records in Hrun as [_ Hall].
    rewrite replay_close_trades_seen by done. simpl.
    by rewrite set_frozen_cash_twice.
  - unfold fast_forward. simpl. intros [= <-]. by rewrite set_frozen_cash_twice.
Qed.

Lemma pending_new_all_frozen_cash (me : nat) (orders : list Order.t) : ∀ self,
  pending_new_all env me self orders
  = set_frozen_cash self
      (foldl Qcplus (_frozen_cash self) (_frozen_cash_of_order env <$> orders)).
Proof.
  unfold pending_new_all.
  induction orders as [|order orders IH]; intros self; simpl.
  { by rewrite set_frozen_cash_same. }
  rewrite IH. unfold _on_order_pending_new.
  rewrite (decide_False (P := me ≠ me)) by auto.
  by rewrite set_frozen_cash_twice.
Qed.

(** X11: incremental tracking and cold replay agree: an account without
    frozen cash that receives one pending-new event for each order of a list
    of active orders is the account [fast_forward] produces from that list
    (both add the reservations to zero, from left to right). *)
Theorem pending_new_events_agree_with_fast_forward (me : nat) self
    (orders : list Order.t) :
  _frozen_cash self = 0%Qc →
  Forall (λ order, Order.is_active order = true) orders →
  fast_forward env self orders None = Some (pending_new_all env me self orders).
Proof.
  intros Hzero Hactive. rewrite pending_new_all_frozen_cash, Hzero.
  unfold fast_forward, sum_Qc. simpl. do 4 f_equal.
  induction Hactive as [|order orders Hact _ IH]; simpl; [done|].
  by rewrite Hact, IH.
Qed.

(** ** Order decomposition *)

Local Ltac leg_cases :=
  repeat case_bool_decide; simpl in *; try (exfalso; lia).

(** X12: the child orders of [order] ask, together, for exactly the absolute
    value of the quantity they decompose: nothing of the requested change is
    lost or added. *)
Theorem order_amounts_add_up self order_book_id (quantity : Z) style (target : bool) :
  total_amount (order self order_book_id quantity style target)
  = Z.abs (order_delta self order_book_id quantity target).
Proof.
  unfold order, order_delta, total_amount.
  set (position := positions_getitem self order_book_id).
  generalize (if target
              then quantity - Position.buy_quantity position
                   + Position.sell_quantity position
              else quantity) as delta.
  generalize (Position.sell_old_quantity position) (Position.sell_today_quantity position)
             (Position.buy_old_quantity position) (Position.buy_today_quantity position).
  intros so st bo bt delta. leg_cases; lia.
Qed.

(** X13: every child order of [order] is on the requested instrument and
    style, buys when the decomposed quantity is positive and sells otherwise,
    asks for a positive amount unless that quantity is zero, and, when it
    closes, asks for no more than the bucket it closes holds: the old bucket
    of the opposite side for CLOSE, today's for CLOSE_TODAY. *)
Theorem order_legs_fit_buckets self order_book_id (quantity : Z) style (target : bool)
    (leg : Request.t Style) :
  leg ∈ order self order_book_id quantity style target →
  let position := positions_getitem self order_book_id in
  let delta := order_delta self order_book_id quantity target in
  Request.order_book_id leg = order_book_id
  ∧ Request.style leg = style
  ∧ Request.side leg = (if bool_decide (delta > 0) then BUY else SELL)
  ∧ (delta ≠ 0 → Request.amount leg > 0)
  ∧ (Request.position_effect leg = CLOSE →
     Request.amount leg
     ≤ if bool_decide (delta > 0) then Position.sell_old_quantity position
       else Position.buy_old_quantity position)
  ∧ (Request.position_effect leg = CLOSE_TODAY →
     Request.amount leg
     ≤ if bool_decide (delta > 0) then Position.sell_today_quantity position
       else Position.buy_today_quantity position).
Proof.
  intros Hleg position delta. subst delta. revert Hleg.
  unfold order, order_delta. fold position.
  generalize (if target
              then quantity - Position.buy_quantity position
                   + Position.sell_quantity position
              else quantity) as d.
  generalize (Position.sell_old_quantity position) (Position.sell_today_quantity position)
             (Position.buy_old_quantity position) (Position.buy_today_quantity position).
  intros so st bo bt d Hleg.
  leg_cases;
    repeat (apply elem_of_cons in Hleg as [-> | Hleg]);
    try (by apply elem_of_nil in Hleg);
    simpl; repeat split; try done; try lia.
Qed.

(** X14: with nothing to close on the opposite side, the whole quantity is
    opened in one child order; and a zero quantity against an empty buy-old
    bucket gives no child order at all. *)
Theorem order_opens_when_nothing_to_close self order_book_id (quantity : Z) style
    (target : bool) :
  let position := positions_getitem self order_book_id in
  let delta := order_delta self order_book_id quantity target in
  (delta > 0 →
   Position.sell_old_quantity position ≤ 0 →
   Position.sell_today_quantity position ≤ 0 →
   order self order_book_id quantity style target
   = [Request.mk order_book_id delta BUY OPEN style])
  ∧ (delta < 0 →
     Position.buy_old_quantity position ≤ 0 →
     Position.buy_today_quantity position ≤ 0 →
     order self order_book_id quantity style target
     = [Request.mk order_book_id (- delta) SELL OPEN style])
  ∧ (delta = 0 →
     Position.buy_old_quantity position ≤ 0 →
     order self order_book_id quantity style target = []).
Proof.
  intros position delta. subst delta.
  unfold order, order_delta. fold position.
  generalize (if target
              then quantity - Position.buy_quantity position
                   + Position.sell_quantity position
              else quantity) as d.
  intros d. repeat split; intros; leg_cases; repeat (f_equal; try lia).
Qed.

(** ** Snapshots *)

Lemma set_state_step_fresh (positions : gmap string P) (c : Qc) k (v : snapshot) :
  positions !! k = None →
  set_state_step (positions, c) (k, v)
  = if rate_changed (k, v)
    then if decide (Position.margin_rate (restored (k, v)) = 0%Qc) then None
         else Some (<[k := restored (k, v)]> positions,
                    (c + margin_difference (k, v))%Qc)
    else Some (<[k := restored (k, v)]> positions, c).
Proof.
  intros Hnone. unfold set_state_step, get_or_create. rewrite Hnone.
  rewrite insert_insert_eq.
  unfold rate_changed, margin_difference, restored. simpl.
  destruct (Position.snapshot_margin_rate v) as [rate|]; [|done].
  by case_bool_decide.
Qed.

Lemma set_state_loop_lookup (items : list (string * snapshot)) :
  ∀ positions c positions' c',
  NoDup items.*1 →
  (∀ k, k ∈ items.*1 → positions !! k = None) →
  set_state_loop (positions, c) items = Some (positions', c') →
  ∀ k, positions' !! k
       = match (list_to_map items : gmap string snapshot) !! k with
         | Some v => Some (restored (k, v))
         | None => positions !! k
         end.
Proof.
  induction items as [|[k0 v0] items IH];
    intros positions c positions' c' Hnd Hfresh Hrun k.
  { by injection Hrun as <- <-. }
  rewrite fmap_cons in Hnd, Hfresh. simpl in Hnd, Hfresh.
  apply NoDup_cons in Hnd as [Hk0 Hnd].
  assert (Hnone : positions !! k0 = None) by (apply Hfresh, elem_of_cons; by left).
  cbn [set_state_loop] in Hrun. rewrite set_state_step_fresh in Hrun by done.
  assert (Hnext : ∃ c1, set_state_loop (<[k0 := restored (k0, v0)]> positions, c1) items
                        = Some (positions', c')).
  { destruct (rate_changed _); [|by eauto]. case_decide; [done|by eauto]. }
  destruct Hnext as [c1 Hnext].
  assert (Hrest : ∀ k', k' ∈ items.*1 →
            <[k0 := restored (k0, v0)]> positions !! k' = None).
  { intros k' Hin. rewrite lookup_insert_ne by (by intros ->).
    apply Hfresh, elem_of_cons. by right. }
  rewrite (IH _ _ _ _ Hnd Hrest Hnext k), list_to_map_cons.
  destruct (decide (k = k0)) as [->|Hne].
  - rewrite (not_elem_of_list_to_map_1 items k0) by done.
    by rewrite !lookup_insert_eq.
  - by rewrite !lookup_insert_ne.
Qed.

Lemma set_state_loop_raises (items : list (string * snapshot)) :
  ∀ positions c,
  NoDup items.*1 →
  (∀ k, k ∈ items.*1 → positions !! k = None) →
  set_state_loop (positions, c) items = None ↔ Exists unpriceable items.
Proof.
  induction items as [|[k0 v0] items IH]; intros positions c Hnd Hfresh.
  { simpl. split; [done|]. by intros ?%Exists_nil. }
  rewrite fmap_cons in Hnd, Hfresh. simpl in Hnd, Hfresh.
  apply NoDup_cons in Hnd as [Hk0 Hnd].
  assert (Hnone : positions !! k0 = None) by (apply Hfresh, elem_of_cons; by left).
  assert (Hrest : ∀ k, k ∈ items.*1 →
            <[k0 := restored (k0, v0)]> positions !! k = None).
  { intros k Hin. rewrite lookup_insert_ne by (by intros ->).
    apply Hfresh, elem_of_cons. by right. }
  cbn [set_state_loop]. rewrite set_state_step_fresh by done.
  rewrite Exists_cons. unfold unpriceable at 1.
  destruct (rate_changed (k0, v0)).
  - case_decide as Hzero.
    + split; [by left|done].
    + rewrite IH by done. split; [by right|]. by intros [[_ ?]|?].
  - rewrite IH by done. split; [by right|]. by intros [[? _]|?].
Qed.

(** X15: what [set_state] leaves in the position collection is exactly one
    restored position for each entry of the snapshot, under the same
    instrument: whatever the account held before is gone.  The
    [forced_liquidation] setting is not part of a snapshot and stays. *)
Theorem set_state_replaces_positions self (state : AccountState.t snapshot) self' :
  set_state self state = Some self' →
  (∀ k, _positions self' !! k
        = (λ v, Position.set_state (Position.cls k) v)
            <$> AccountState.positions state !! k)
  ∧ forced_liquidation self' = forced_liquidation self.
Proof.
  intros Hrun. unfold set_state in Hrun. simpl in Hrun.
  destruct (set_state_loop _ _) as [[positions c]|] eqn:Hloop; [|done].
  injection Hrun as <-. simpl. split; [|done]. intros k.
  rewrite (set_state_loop_lookup _ _ _ _ _ (NoDup_fst_map_to_list _)
             ltac:(by intros; apply lookup_empty) Hloop k).
  rewrite list_to_map_to_list, lookup_empty.
  by destruct (AccountState.positions state !! k).
Qed.

(** X16: [set_state] raises exactly when the snapshot has a position whose
    recorded margin rate is further than 1e-6 from the resolved rate while
    the resolved rate is zero (the pro-rating divides by it). *)
Theorem set_state_raises_on_zero_rate self (state : AccountState.t snapshot) :
  set_state self state = None
  ↔ ∃ item, item ∈ map_to_list (AccountState.positions state) ∧ unpriceable item.
Proof.
  rewrite <- Exists_exists.
  rewrite <- (set_state_loop_raises _ ∅ 0%Qc (NoDup_fst_map_to_list _)
                ltac:(by intros; apply lookup_empty)).
  unfold set_state. simpl.
  by destruct (set_state_loop _ _) as [[positions c]|].
Qed.

Lemma filter_none {A} (f : A → bool) (l : list A) :
  (∀ x, x ∈ l → f x = false) → List.filter f l = [].
Proof.
  induction l as [|x l IH]; intros Hall; simpl; [done|].
  rewrite Hall by (apply elem_of_cons; by left).
  apply IH. intros y Hy. apply Hall, elem_of_cons. by right.
Qed.

(** X17: restoring what [get_state] exported gives the account back:
    positions, total cash, frozen cash and replay guard are those of the
    exported account, provided each position is restored from its own
    snapshot and records a margin rate within 1e-6 of the resolved one (or
    none). *)
Theorem set_state_get_state (position_get_state : P → snapshot) self other :
  (∀ k p, _positions self !! k = Some p →
     Position.set_state (Position.cls k) (position_get_state p) = p
     ∧ rate_changed (k, position_get_state p) = false) →
  set_state other (get_state position_get_state self)
  = Some (mk (_positions self) (_total_cash self) (_frozen_cash self)
             (_backward_trade_set self) (forced_liquidation other)).
Proof.
  intros Hpos.
  set (state := get_state position_get_state self).
  assert (Hitems : ∀ item, item ∈ map_to_list (AccountState.positions state) →
            ∃ p, _positions self !! item.1 = Some p
                 ∧ item.2 = position_get_state p).
  { intros [k v] Hin. apply elem_of_map_to_list in Hin.
    unfold state, get_state in Hin. simpl in Hin.
    rewrite lookup_fmap in Hin. simpl.
    destruct (_positions self !! k) as [p|]; [|done].
    injection Hin as <-. eauto. }
  assert (Hquiet : ∀ item, item ∈ map_to_list (AccountState.positions state) →
            rate_changed item = false).
  { intros [k v] Hin. destruct (Hitems _ Hin) as (p & Hp & Hv). simpl in *.
    subst v. by apply Hpos. }
  unfold set_state. cbn [_positions set_positions set_backward_trade_set set_frozen_cash].
  destruct (set_state_loop _ _) as [[positions c]|] eqn:Hloop.
  - pose proof (set_state_loop_lookup _ _ _ _ _ (NoDup_fst_map_to_list _)
                  ltac:(by intros; apply lookup_empty) Hloop) as Hlookup.
    apply set_state_loop_spec in Hloop;
      [|apply NoDup_fst_map_to_list|by intros; apply lookup_empty].
    rewrite filter_none in Hloop by done. subst c.
    unfold set_total_cash, set_positions. simpl. f_equal. f_equal.
    + apply map_eq. intros k. rewrite Hlookup, list_to_map_to_list, lookup_empty.
      unfold state, get_state. simpl. rewrite lookup_fmap.
      destruct (_positions self !! k) as [p|] eqn:Hp; simpl; [|done].
      unfold restored. simpl. f_equal. by apply Hpos.
    + rewrite sum_Qc_nil. ring.
    + apply list_to_set_elements_L.
  - apply set_state_loop_raises in Hloop;
      [|apply NoDup_fst_map_to_list|by intros; apply lookup_empty].
    apply Exists_exists in Hloop as (item & Hin & Hchanged & _).
    by rewrite Hquiet in Hchanged.
Qed.

(** ** The listeners together *)

(** X18: dividing by an order quantity of zero makes a listener raise: a
    trade for this account that is not a replay and comes with an order of
    quantity zero that the fill does not match, and a reject, update or
    cancellation for this account of an order of quantity zero that reports a
    fill, are answered by an exception, not by an account. *)
Theorem register_event_raises_on_zero_quantity (aggressive : bool) (me : nat) self :
  (∀ (trade : Trade.t) (order : Order.t),
     Trade.exec_id trade ∉ _backward_trade_set self →
     Trade.last_quantity trade ≠ Order.quantity order →
     Order.quantity order = 0 →
     register_event env aggressive me self (Event.TRADE me trade (Some order)) = None)
  ∧ (∀ (order : Order.t) (event : Event.t),
       event = Event.ORDER_CREATION_REJECT me order
       ∨ event = Event.ORDER_UNSOLICITED_UPDATE me order
       ∨ event = Event.ORDER_CANCELLATION_PASS me order →
       Order.filled_quantity order ≠ 0 →
       Order.quantity order = 0 →
       register_event env aggressive me self event = None).
Proof.
  split.
  - intros trade order Hnew Hpart Hzero. simpl. unfold _on_trade, _apply_trade.
    rewrite (decide_False (P := me ≠ me)) by auto.
    rewrite (decide_False (P := Trade.exec_id trade ∈ _)) by done.
    destruct (get_or_create _ _) as [positions position].
    destruct (Position.apply_trade _ _) as [position' delta_cash].
    rewrite decide_True by done. unfold py_div. by rewrite decide_True.
  - intros order event Hevent Hfilled Hzero.
    assert (Hrun : register_event env aggressive me self event
                   = _on_order_unsolicited_update env me self me order).
    { by destruct Hevent as [-> | [-> | ->]]. }
    rewrite Hrun. unfold _on_order_unsolicited_update.
    rewrite (decide_False (P := me ≠ me)) by auto.
    rewrite decide_True by done. unfold py_div. by rewrite decide_True.
Qed.

(** X19: the four order listeners move frozen cash and nothing else:
    positions, total cash and the replay guard are those of the account
    before the event. *)
Theorem order_events_only_move_frozen_cash
    (aggressive : bool) (me account : nat) self (order : Order.t)
    (event : Event.t) self' :
  event = Event.ORDER_PENDING_NEW account order
  ∨ event = Event.ORDER_CREATION_REJECT account order
  ∨ event = Event.ORDER_UNSOLICITED_UPDATE account order
  ∨ event = Event.ORDER_CANCELLATION_PASS account order →
  register_event env aggressive me self event = Some self' →
  self' = set_frozen_cash self (_frozen_cash self').
Proof.
  intros Hevent Hrun.
  assert (Hupdate : _on_order_unsolicited_update env me self account order = Some self' →
                    self' = set_frozen_cash self (_frozen_cash self')).
  { unfold _on_order_unsolicited_update.
    case_decide; [intros [= <-]; by rewrite set_frozen_cash_same|].
    case_decide; [destruct (py_div _ _); simpl; [|done]|]; by intros [= <-]. }
  destruct Hevent as [-> | [-> | [-> | ->]]]; simpl in Hrun; try by apply Hupdate.
  injection Hrun as <-. unfold _on_order_pending_new.
  case_decide; [by rewrite set_frozen_cash_same|done].
Qed.

(** X20: the replay guard does not reach across a settlement: right after
    one, every trade is applied, also a trade that was recorded before; its
    cost and realized cash go into total cash and its exec id is the only one
    in the guard. *)
Theorem settlement_forgets_recorded_trades self (trade : Trade.t) :
  ∃ self',
    _apply_trade env (_settlement self) trade None = Some self'
    ∧ _backward_trade_set self' = {[Trade.exec_id trade]}
    ∧ _total_cash self'
      = (_total_cash (_settlement self) - Trade.transaction_cost trade
         + (Position.apply_trade
              (positions_getitem (_settlement self) (Trade.order_book_id trade))
              trade).2)%Qc.
Proof.
  assert (Hguard : _backward_trade_set (_settlement self) = ∅).
  { rewrite settlement_outcome. by destruct (wiped_out self). }
  revert Hguard. generalize (_settlement self) as after. intros after Hguard.
  unfold _apply_trade. rewrite decide_False by (rewrite Hguard; set_solver).
  assert (Hgoc : (get_or_create (_positions after) (Trade.order_book_id trade)).2
                 = positions_getitem after (Trade.order_book_id trade)).
  { unfold get_or_create, positions_getitem.
    by destruct (_positions after !! _). }
  destruct (get_or_create _ _) as [positions position]. simpl in Hgoc. subst position.
  destruct (Position.apply_trade _ trade) as [position' delta_cash].
  eexists. split; [done|]. simpl. rewrite Hguard. split; [|done].
  apply (right_id_L ∅ (∪)).
Qed.

End Behaviour.

(** ** The further properties on concrete accounts *)

Lemma settlement_total_value_witness :
  wiped_out insolvent_account = true
  ∧ total_value (_settlement insolvent_account) = 0%Qc.
Proof.
  assert (Hwiped : wiped_out insolvent_account = true) by (vm_compute; reflexivity).
  split; [exact Hwiped|]. exact (settlement_total_value insolvent_account Hwiped).
Defined.

Lemma events_for_other_accounts_are_ignored_witness :
  1%nat ≠ 2%nat
  ∧ register_event example_env false 1%nat example_account
      (Event.TRADE 2%nat closing_trade (Some example_order))
    = Some example_account
  ∧ register_event example_env false 1%nat example_account
      (Event.ORDER_CANCELLATION_PASS 2%nat example_order)
    = Some example_account.
Proof.
  assert (Hne : 1%nat ≠ 2%nat) by by_compute.
  destruct (events_for_other_accounts_are_ignored example_env false 1%nat 2%nat
              example_account closing_trade example_order (Some example_order) Hne)
    as (Htrade & _ & _ & _ & Hcancel).
  split; [exact Hne|]. split; [exact Htrade|exact Hcancel].
Defined.

Lemma apply_trade_at_most_once_witness :
  ∃ self',
    _apply_trade example_env example_account closing_trade None = Some self'
    ∧ _apply_trade example_env self' closing_trade (Some example_order) = Some self'.
Proof.
  destruct (apply_trade_alone example_env example_account closing_trade)
    as (self' & Hrun & _).
  exists self'. split; [exact Hrun|].
  exact (apply_trade_at_most_once example_env example_account closing_trade None
           (Some example_order) self' Hrun).
Defined.

Lemma apply_trade_updates_own_position_witness :
  (Trade.exec_id closing_trade ∉ _backward_trade_set example_account)
  ∧ ∃ self',
      _apply_trade example_env example_account closing_trade None = Some self'
      ∧ _positions self'
        = <["IF1706" := (Position.apply_trade example_position closing_trade).1]>
            (_positions example_account)
      ∧ _backward_trade_set self' = {[8]} ∪ _backward_trade_set example_account.
Proof.
  assert (Hnew : Trade.exec_id closing_trade ∉ _backward_trade_set example_account)
    by by_compute.
  split; [exact Hnew|].
  destruct (apply_trade_alone example_env example_account closing_trade)
    as (self' & Hrun & _).
  destruct (apply_trade_updates_own_position example_env example_account closing_trade
              None self' Hnew Hrun) as (Hpositions & _ & Hguard & _).
  exists self'. split; [exact Hrun|]. split; [exact Hpositions|exact Hguard].
Defined.

Lemma fast_forward_skips_recorded_trades_witness :
  Forall (λ trade, Trade.exec_id trade ∈ _backward_trade_set example_account)
    [replayed_trade]
  ∧ fast_forward example_env example_account [example_order] (Some [replayed_trade])
    = Some (set_frozen_cash example_account
              (sum_Qc (_frozen_cash_of_order example_env
                         <$> List.filter Order.is_active [example_order]))).
Proof.
  assert (Hseen : Forall (λ trade, Trade.exec_id trade
                                   ∈ _backward_trade_set example_account)
                    [replayed_trade]).
  { apply Forall_singleton. by_compute. }
  split; [exact Hseen|].
  exact (fast_forward_skips_recorded_trades example_env example_account
           [example_order] [replayed_trade] Hseen).
Defined.

Lemma fast_forward_idempotent_witness :
  ∃ self',
    fast_forward example_env example_account [example_order]
      (Some [closing_trade; opening_trade]) = Some self'
    ∧ fast_forward example_env self' [example_order]
        (Some [closing_trade; opening_trade]) = Some self'.
Proof.
  destruct (fast_forward example_env example_account [example_order]
              (Some [closing_trade; opening_trade])) as [self'|] eqn:Hrun.
  - exists self'. split; [reflexivity|].
    exact (fast_forward_idempotent example_env example_account [example_order]
             (Some [closing_trade; opening_trade]) self' Hrun).
  - exfalso. vm_compute in Hrun. discriminate Hrun.
Defined.

Lemma pending_new_events_agree_with_fast_forward_witness :
  _frozen_cash expiring_account = 0%Qc
  ∧ Forall (λ order, Order.is_active order = true) [fresh_order; example_order]
  ∧ fast_forward example_env expiring_account [fresh_order; example_order] None
    = Some (pending_new_all example_env 1%nat expiring_account
              [fresh_order; example_order]).
Proof.
  assert (Hzero : _frozen_cash expiring_account = 0%Qc) by by_compute.
  assert (Hactive : Forall (λ order, Order.is_active order = true)
                      [fresh_order; example_order]).
  { repeat constructor. }
  split; [exact Hzero|]. split; [exact Hactive|].
  exact (pending_new_events_agree_with_fast_forward example_env 1%nat
           expiring_account [fresh_order; example_order] Hzero Hactive).
Defined.

Lemma order_legs_fit_buckets_witness :
  Request.mk "IF1706" 1 SELL CLOSE_TODAY "MarketOrder"
    ∈ order example_account "IF1706" (-6) "MarketOrder" false
  ∧ Request.amount (Request.mk "IF1706" 1 SELL CLOSE_TODAY "MarketOrder") > 0
  ∧ Request.amount (Request.mk "IF1706" 1 SELL CLOSE_TODAY "MarketOrder")
    ≤ Position.buy_today_quantity (positions_getitem example_account "IF1706").
Proof.
  assert (Hleg : Request.mk "IF1706" 1 SELL CLOSE_TODAY "MarketOrder"
                   ∈ order example_account "IF1706" (-6) "MarketOrder" false).
  { apply list_elem_of_further, list_elem_of_here. }
  destruct (order_legs_fit_buckets example_account "IF1706" (-6) "MarketOrder" false
              _ Hleg) as (_ & _ & _ & Hpositive & _ & Htoday).
  split; [exact Hleg|]. split; [apply Hpositive; by_compute|].
  exact (Htoday eq_refl).
Defined.

Lemma order_opens_when_nothing_to_close_witness :
  order_delta example_account "IF1706" 4 false > 0
  ∧ Position.sell_old_quantity (positions_getitem example_account "IF1706") ≤ 0
  ∧ Position.sell_today_quantity (positions_getitem example_account "IF1706") ≤ 0
  ∧ order example_account "IF1706" 4 "MarketOrder" false
    = [Request.mk "IF1706" 4 BUY OPEN "MarketOrder"].
Proof.
  assert (Hd : order_delta example_account "IF1706" 4 false > 0) by by_compute.
  assert (Hso : Position.sell_old_quantity (positions_getitem example_account "IF1706")
                ≤ 0) by by_compute.
  assert (Hst : Position.sell_today_quantity (positions_getitem example_account "IF1706")
                ≤ 0) by by_compute.
  split; [exact Hd|]. split; [exact Hso|]. split; [exact Hst|].
  exact (proj1 (order_opens_when_nothing_to_close example_account "IF1706" 4
                  "MarketOrder" false) Hd Hso Hst).
Defined.

Lemma set_state_replaces_positions_witness :
  ∃ self',
    set_state insolvent_account example_state = Some self'
    ∧ (∀ k, _positions self' !! k
            = (λ v, Position.set_state (Position.cls k) v)
                <$> AccountState.positions example_state !! k)
    ∧ forced_liquidation self' = forced_liquidation insolvent_account.
Proof.
  destruct (set_state insolvent_account example_state) as [self'|] eqn:Hrun.
  - exists self'. split; [reflexivity|].
    exact (set_state_replaces_positions insolvent_account example_state self' Hrun).
  - exfalso. vm_compute in Hrun. discriminate Hrun.
Defined.

Lemma set_state_get_state_witness :
  (∀ k p, _positions example_account !! k = Some p →
     Position.set_state (Position.cls k) (example_position_get_state p) = p
     ∧ rate_changed (k, example_position_get_state p) = false)
  ∧ set_state insolvent_account (get_state example_position_get_state example_account)
    = Some (mk (_positions example_account) (_total_cash example_account)
               (_frozen_cash example_account) (_backward_trade_set example_account)
               (forced_liquidation insolvent_account)).
Proof.
  assert (Hpos : ∀ k p, _positions example_account !! k = Some p →
            Position.set_state (Position.cls k) (example_position_get_state p) = p
            ∧ rate_changed (k, example_position_get_state p) = false).
  { intros k p _. split; [reflexivity|]. vm_compute. reflexivity. }
  split; [exact Hpos|].
  exact (set_state_get_state example_position_get_state example_account
           insolvent_account Hpos).
Defined.

Lemma order_events_only_move_frozen_cash_witness :
  ∃ self',
    register_event example_env false 1%nat example_account
      (Event.ORDER_PENDING_NEW 1%nat fresh_order) = Some self'
    ∧ self' = set_frozen_cash example_account (_frozen_cash self').
Proof.
  eexists. split; [reflexivity|].
  exact (order_events_only_move_frozen_cash example_env false 1%nat 1%nat
           example_account fresh_order (Event.ORDER_PENDING_NEW 1%nat fresh_order) _
           (or_introl eq_refl) eq_refl).
Defined.

Lemma register_event_raises_on_zero_quantity_witness :
  Order.filled_quantity empty_order ≠ 0
  ∧ Order.quantity empty_order = 0
  ∧ register_event example_env false 1%nat example_account
      (Event.ORDER_CREATION_REJECT 1%nat empty_order) = None.
Proof.
  assert (Hfilled : Order.filled_quantity empty_order ≠ 0) by by_compute.
  split; [exact Hfilled|]. split; [reflexivity|].
  exact (proj2 (register_event_raises_on_zero_quantity example_env false 1%nat
                  example_account)
           empty_order (Event.ORDER_CREATION_REJECT 1%nat empty_order)
           (or_introl eq_refl) Hfilled eq_refl).
Defined.

Section Expiring.
#[local] Existing Instance expiring_model.

Lemma settlement_drops_de_listed_and_flat_witness :
  _positions expiring_account !! "IF1703" = Some expiring_position
  ∧ Position.is_de_listed expiring_position = true
  ∧ Position.buy_quantity expiring_position
    + Position.sell_quantity expiring_position ≠ 0
  ∧ _positions (_settlement expiring_account) !! "IF1703" = None.
Proof.
  assert (Hheld : _positions expiring_account !! "IF1703" = Some expiring_position)
    by (vm_compute; reflexivity).
  assert (Hgone : Position.is_de_listed expiring_position = true) by reflexivity.
  assert (Hexposed : Position.buy_quantity expiring_position
                     + Position.sell_quantity expiring_position ≠ 0) by by_compute.
  split; [exact Hheld|]. split; [exact Hgone|]. split; [exact Hexposed|].
  exact (settlement_drops_de_listed_and_flat expiring_account "IF1703" expiring_position
           Hheld (or_introl (conj Hgone Hexposed))).
Defined.
End Expiring.


End FutureAccount.
